(** * A console task manager: the store, the task service and their contracts

    Shallow embedding of [nui/demo/py/demo.py].

    - Python strings are Rocq strings (sequences of bytes); [strip], [lower]
      and the [in] operator are written out for ASCII text, bytes above 127
      are carried along unchanged.
    - Python ints are integers of [Z]; Python floats are the binary64
      floats of the kernel, with the same arithmetic.
    - A task dictionary has the six keys [create_task] gives it and is a
      record; the store root [self.data] is a record of the task list and
      the two counters. A backing file that [json.load] accepts is taken to
      hold such a root.
    - The backing file lives on a disk that maps file names to contents.
      [json.dump] and [json.load] belong to the Python library: they are
      parameters of the development, and the only fact used about them is
      that loading what was dumped gives the value back.
    - [input] is a parameter of the method that calls it (the line the user
      typed), [uuid.uuid4] and [datetime.now] likewise (the text they
      produced); [print] appends a line to the console. What the contracts
      call the id, the keyword or the priority given is that line as the
      method takes it, with [strip] applied.
    - Failures of writing (disk full, permissions) are not modelled. The
      export file is written to the same disk, its text through a
      parameter of its own.
    - [main] reads its lines from a finite standard input; an [input] that
      finds none raises [EOFError], which ends [main]. The loop is run with
      fuel, one unit for a pass. Clearing the screen leaves the record of
      what was printed as it is.
    - Slices and paddings count bytes, which are the characters of ASCII
      text. *)

From Stdlib Require Import ZArith String Ascii List Lia Bool.
From Stdlib Require Import Uint63 PrimFloat FloatOps.
From stdpp Require Import base strings list gmap pretty.

Local Open Scope Z_scope.

(** ** Python string methods *)

Module PyStr.

(** [str.isspace] on one ASCII character: tab, line feed, vertical tab, form
    feed, carriage return, the four separators 28-31 and the blank. *)
Definition isspace (c : ascii) : bool :=
  let n := N_of_ascii c in
  (((9 <=? n) && (n <=? 13)) || ((28 <=? n) && (n <=? 32)))%N.

Definition lower_char (c : ascii) : ascii :=
  let n := N_of_ascii c in
  if ((65 <=? n) && (n <=? 90))%N then ascii_of_N (n + 32) else c.

(** [s.lower()] *)
Fixpoint lower (s : string) : string :=
  match s with
  | EmptyString => EmptyString
  | String c r => String (lower_char c) (lower r)
  end.

(** [s.lstrip()] *)
Fixpoint lstrip (s : string) : string :=
  match s with
  | EmptyString => EmptyString
  | String c r => if isspace c then lstrip r else s
  end.

(** [s.rstrip()] *)
Fixpoint rstrip (s : string) : string :=
  match s with
  | EmptyString => EmptyString
  | String c r =>
      match rstrip r with
      | EmptyString => if isspace c then EmptyString else String c EmptyString
      | r' => String c r'
      end
  end.

(** [s.strip()] *)
Definition strip (s : string) : string := rstrip (lstrip s).

(** [s[:n]] *)
Fixpoint slice_to (n : nat) (s : string) : string :=
  match n, s with
  | S n', String c r => String c (slice_to n' r)
  | _, _ => EmptyString
  end.

(** [sub in s] *)
Fixpoint contains (sub s : string) : bool :=
  String.prefix sub s ||
  match s with
  | EmptyString => false
  | String _ r => contains sub r
  end.

(** [c * n] for a character [c] *)
Fixpoint repeat_char (c : ascii) (n : nat) : string :=
  match n with
  | O => EmptyString
  | S n' => String c (repeat_char c n')
  end.

(** [f"{s:<w}"]: [s] padded with blanks on the right up to width [w]. *)
Definition ljust (w : nat) (s : string) : string :=
  s +:+ repeat_char " "%char (w - String.length s).


(** *** [str.lower] on ASCII text with Greek letters

    In UTF-8 a Greek capital letter from Α to Ω is the byte 206 followed by
    a byte from 145 to 169 (162 stands for no letter); a small letter from
    α to ο is 206 followed by 177 to 191, and one from π to ω, with ς, is
    207 followed by 128 to 137. [str.lower] gives a capital letter the small
    letter 32 code points further on, but for Σ, which becomes ς when a
    letter stands before it and none after it, and σ otherwise; apostrophe,
    full stop, colon, circumflex and grave accent between Σ and a letter are
    passed over in this rule. *)

Definition ascii_letter (c : ascii) : bool :=
  let n := N_of_ascii c in
  (((65 <=? n) && (n <=? 90)) || ((97 <=? n) && (n <=? 122)))%N.

Definition case_ignorable (c : ascii) : bool :=
  let n := N_of_ascii c in
  ((n =? 39) || (n =? 46) || (n =? 58) || (n =? 94) || (n =? 96))%N.

Definition greek_capital (c d : ascii) : bool :=
  let n := N_of_ascii d in
  ((N_of_ascii c =? 206) && (145 <=? n) && (n <=? 169) && negb (n =? 162))%N.

Definition greek_small (c d : ascii) : bool :=
  let n := N_of_ascii d in
  (((N_of_ascii c =? 206) && (177 <=? n) && (n <=? 191))
   || ((N_of_ascii c =? 207) && (128 <=? n) && (n <=? 137)))%N.

(** Whether a letter comes next, the characters passed over left aside. *)
Fixpoint letter_follows (s : string) : bool :=
  match s with
  | EmptyString => false
  | String c r =>
      if case_ignorable c then letter_follows r
      else
        ascii_letter c
        || match r with
           | String d _ => greek_capital c d || greek_small c d
           | EmptyString => false
           end
  end.

(** The small letter of the Greek capital letter [c d]; [final] tells
    whether a Σ stands at the end of a word. *)
Definition greek_lower (c d : ascii) (final : bool) : string :=
  let n := N_of_ascii d in
  if (n =? 163)%N then (if final then "ς" else "σ")
  else if (n <? 160)%N then String c (String (ascii_of_N (n + 32)) EmptyString)
  else String (ascii_of_N 207) (String (ascii_of_N (n - 32)) EmptyString).

(** [lower_from after_letter s]: the lower-case form of [s] where
    [after_letter] tells whether a letter stands before [s], the characters
    passed over left aside. *)
Fixpoint lower_from (after_letter : bool) (s : string) : string :=
  match s with
  | EmptyString => EmptyString
  | String c r =>
      match r with
      | String d r' =>
          if greek_capital c d
          then greek_lower c d (after_letter && negb (letter_follows r'))
               +:+ lower_from true r'
          else if greek_small c d
          then String c (String d (lower_from true r'))
          else
            String (lower_char c)
              (lower_from
                 (if ascii_letter c then true
                  else if case_ignorable c then after_letter else false)
                 r)
      | EmptyString => String (lower_char c) EmptyString
      end
  end.

(** [s.lower()] for [s] of ASCII characters and the Greek letters from Α to
    Ω and from α to ω. *)
Definition lower_greek (s : string) : string := lower_from false s.

End PyStr.

(** ** Python numbers: ints as floats, and a float as text *)

Module PyFloat.

(** [float(z)], exact for an int below 2^53 in absolute value. *)
Definition of_int (z : Z) : float :=
  match z with
  | Z0 => PrimFloat.zero
  | Zpos _ => PrimFloat.of_uint63 (Uint63.of_Z z)
  | Zneg _ => PrimFloat.opp (PrimFloat.of_uint63 (Uint63.of_Z (- z)))
  end.

(** [a / b] on ints with [b] other than 0: for operands below 2^53 in
    absolute value, the quotient of the two floats. *)
Definition truediv (a b : Z) : float := PrimFloat.div (of_int a) (of_int b).

(** A finite float is [m * 2^e] up to its sign: the pair [(m, e)]. *)
Definition decompose (x : float) : Z * Z :=
  let '(f, e) := PrimFloat.frshiftexp (PrimFloat.abs x) in
  (Uint63.to_Z (PrimFloat.normfr_mantissa f),
   Uint63.to_Z e - FloatOps.shift - FloatOps.prec).

(** The integer nearest to [num / den], the even one of two at equal
    distance. *)
Definition round_half_even (num den : Z) : Z :=
  let q := num / den in
  let r := num mod den in
  if 2 * r <? den then q
  else if den <? 2 * r then q + 1
  else if Z.even q then q else q + 1.

(** The number of hundredths nearest to the absolute value of a finite
    float. *)
Definition hundredths (x : float) : Z :=
  let '(m, e) := decompose x in
  if 0 <=? e then m * 2 ^ e * 100
  else round_half_even (m * 100) (2 ^ (- e)).

(** A number of hundredths as text, two digits after the point. *)
Definition decimal2 (n : Z) : string :=
  pretty (n / 100) +:+ "." +:+ pretty (n mod 100 / 10) +:+ pretty (n mod 10).

(** [f"{x:.2f}"] *)
Definition format_2f (x : float) : string :=
  if PrimFloat.is_nan x then "nan"
  else if PrimFloat.is_infinity x
  then (if PrimFloat.get_sign x then "-inf" else "inf")
  else (if PrimFloat.get_sign x then "-" else "") +:+ decimal2 (hundredths x).

End PyFloat.

(** ** Data layer: the records *)

Module Task.
Record t := mk {
  id : string;
  title : string;
  description : string;
  priority : string;
  created_at : string;
  completed : bool
}.
End Task.

Module Stats.
Record t := mk {
  created : Z;
  completed : Z
}.
End Stats.

Record Data := mkData {
  tasks : list Task.t;
  stats : Stats.t
}.

(** The value [Storage.__init__] gives [self.data]. *)
Definition empty_data : Data :=
  {| tasks := []; stats := Stats.mk 0 0 |}.

(** One entry of the [updates] dictionary handed to [dict.update]. *)
Inductive entry :=
  | SetId (v : string)
  | SetTitle (v : string)
  | SetDescription (v : string)
  | SetPriority (v : string)
  | SetCreatedAt (v : string)
  | SetCompleted (v : bool).

Definition set_entry (task : Task.t) (e : entry) : Task.t :=
  let '(Task.mk i t d p c b) := task in
  match e with
  | SetId v => Task.mk v t d p c b
  | SetTitle v => Task.mk i v d p c b
  | SetDescription v => Task.mk i t v p c b
  | SetPriority v => Task.mk i t d v c b
  | SetCreatedAt v => Task.mk i t d p v b
  | SetCompleted v => Task.mk i t d p c v
  end.

(** [task.update(updates)] *)
Definition dict_update (task : Task.t) (updates : list entry) : Task.t :=
  fold_left set_entry updates task.

(** ** Utility functions *)

(** [generate_id]: the first eight characters of the text of a UUID;
    [uuid] is [str(uuid.uuid4())]. *)
Definition generate_id (uuid : string) : string := PyStr.slice_to 8 uuid.

(** ** Data layer: the store *)

Module Storage.
Section WithJson.

(** Contents of a file, and the JSON library of Python:
    [json_dump d] is what [json.dump(d, f, indent=4)] writes,
    [json_load t] is [Some d] when [json.load] returns [d] on a file holding
    [t], and [None] when it raises. *)
Context {text : Type}.
Variable json_dump : Data -> text.
Variable json_load : text -> option Data.

(** A file that exists: one that cannot be opened or decoded, or one with
    contents. *)
Inductive file :=
  | Unreadable
  | Content (t : text).

(** The [Storage] object ([filename], [data]), the disk and the console. *)
Record State := mkState {
  filename : string;
  data : Data;
  disk : gmap string file;
  console : list string
}.

Definition print (line : string) (s : State) : State :=
  mkState (filename s) (data s) (disk s) (console s ++ [line]).

Definition set_data (d : Data) (s : State) : State :=
  mkState (filename s) d (disk s) (console s).

Definition load_warning : string :=
  "⚠ Error loading data file. Using empty storage.".

(** [Storage.load] *)
Definition load (s : State) : State :=
  match disk s !! filename s with
  | None => s
  | Some Unreadable => print load_warning s
  | Some (Content t) =>
      match json_load t with
      | Some d => set_data d s
      | None => print load_warning s
      end
  end.

(** [Storage.__init__], on a given disk and console. *)
Definition init (name : string) (d : gmap string file)
    (out : list string) : State :=
  load (mkState name empty_data d out).

(** [Storage.save] *)
Definition save (s : State) : State :=
  mkState (filename s) (data s)
    (<[filename s := Content (json_dump (data s))]> (disk s)) (console s).

(** [Storage.get_tasks] *)
Definition get_tasks (s : State) : list Task.t := tasks (data s).

(** [Storage.add_task] *)
Definition add_task (task : Task.t) (s : State) : State :=
  let d := data s in
  let d1 := mkData (tasks d ++ [task]) (stats d) in
  let d2 :=
    mkData (tasks d1)
      (Stats.mk (Stats.created (stats d1) + 1) (Stats.completed (stats d1))) in
  save (set_data d2 s).

(** The loop of [Storage.update_task] over the task list: [Some] of the list
    with the first task of that id updated, [None] when the loop runs to its
    end. *)
Fixpoint update_loop (task_id : string) (updates : list entry)
    (l : list Task.t) : option (list Task.t) :=
  match l with
  | [] => None
  | task :: rest =>
      if String.eqb (Task.id task) task_id
      then Some (dict_update task updates :: rest)
      else option_map (cons task) (update_loop task_id updates rest)
  end.

(** [Storage.update_task] *)
Definition update_task (task_id : string) (updates : list entry)
    (s : State) : bool * State :=
  match update_loop task_id updates (tasks (data s)) with
  | Some l => (true, save (set_data (mkData l (stats (data s))) s))
  | None => (false, s)
  end.

(** [Storage.delete_task] *)
Definition delete_task (task_id : string) (s : State) : bool * State :=
  let original_len := length (tasks (data s)) in
  let s1 :=
    set_data
      (mkData (filter (λ t, Task.id t ≠ task_id) (tasks (data s)))
         (stats (data s))) s in
  if negb (Nat.eqb (length (tasks (data s1))) original_len)
  then (true, save s1)
  else (false, s1).

(** [Storage.increment_completed] *)
Definition increment_completed (s : State) : State :=
  let d := data s in
  save (set_data
          (mkData (tasks d)
             (Stats.mk (Stats.created (stats d)) (Stats.completed (stats d) + 1)))
          s).

(** [Storage.get_stats] *)
Definition get_stats (s : State) : Stats.t := stats (data s).

End WithJson.

Arguments file : clear implicits.
Arguments State : clear implicits.
Arguments Unreadable {text}.
Arguments Content {text} t.

End Storage.

(** ** The backing file before its shape is known

    [json.load] returns whatever JSON value the file holds, and [load] takes
    it for [self.data] without looking at it. [Storage] above is this layer
    with every value that is loaded taken to be a store. *)

Module Json.

(** What [json.load] can return. *)
#[warnings="-register-all"] Inductive value :=
  | Null
  | Bool (b : bool)
  | Int (z : Z)
  | Float (x : float)
  | Str (s : string)
  | Arr (l : list value)
  | Obj (l : list (string * value)).

(** A task and the store root as [create_task] and [__init__] build them. *)
Definition of_task (t : Task.t) : value :=
  Obj [("id", Str (Task.id t)); ("title", Str (Task.title t));
       ("description", Str (Task.description t));
       ("priority", Str (Task.priority t));
       ("created_at", Str (Task.created_at t));
       ("completed", Bool (Task.completed t))].

Definition of_data (d : Data) : value :=
  Obj [("tasks", Arr (of_task <$> tasks d));
       ("stats",
        Obj [("created", Int (Stats.created (stats d)));
             ("completed", Int (Stats.completed (stats d)))])].

Inductive error :=
  | TypeError
  | KeyError (key : string).

Fixpoint get (key : string) (l : list (string * value)) : option value :=
  match l with
  | [] => None
  | (k, v) :: rest => if String.eqb k key then Some v else get key rest
  end.

(** [v[key]] for a string [key]: the entry of a dictionary, [KeyError]
    without one, and [TypeError] on every value that is no dictionary. *)
Definition subscript (v : value) (key : string) : error + value :=
  match v with
  | Obj l =>
      match get key l with
      | Some x => inr x
      | None => inl (KeyError key)
      end
  | _ => inl TypeError
  end.

End Json.

Module Raw.
Section WithJson.

(** [json_load t] is [Some v] when [json.load] returns [v] on a file holding
    [t], and [None] when it raises. *)
Context {text : Type}.
Variable json_load : text -> option Json.value.

Record State := mkState {
  filename : string;
  data : Json.value;
  disk : gmap string (Storage.file text);
  console : list string
}.

Definition print (line : string) (s : State) : State :=
  mkState (filename s) (data s) (disk s) (console s ++ [line]).

Definition set_data (v : Json.value) (s : State) : State :=
  mkState (filename s) v (disk s) (console s).

(** [Storage.load] *)
Definition load (s : State) : State :=
  match disk s !! filename s with
  | None => s
  | Some Storage.Unreadable => print Storage.load_warning s
  | Some (Storage.Content t) =>
      match json_load t with
      | Some v => set_data v s
      | None => print Storage.load_warning s
      end
  end.

(** [Storage.__init__], on a given disk and console. *)
Definition init (name : string) (d : gmap string (Storage.file text))
    (out : list string) : State :=
  load (mkState name (Json.of_data empty_data) d out).

(** [Storage.get_tasks]: [self.data["tasks"]], which every method but
    [get_stats] and [increment_completed] evaluates first. *)
Definition get_tasks (s : State) : Json.error + Json.value :=
  Json.subscript (data s) "tasks".

(** [Storage.get_stats]: [self.data["stats"]] *)
Definition get_stats (s : State) : Json.error + Json.value :=
  Json.subscript (data s) "stats".


End WithJson.

Arguments State : clear implicits.

End Raw.

(** ** Task manager logic *)

Module TaskManager.
Section WithJson.

Context {text : Type}.
Variable json_dump : Data -> text.

Abbreviation State := (Storage.State text).

Definition newline : string := String (ascii_of_nat 10) EmptyString.

(** [TaskManager.create_task]; the three lines typed at the prompts, the
    text of the UUID and the text of the clock are arguments. *)
Definition create_task (title_line description_line priority_line : string)
    (uuid now : string) (s : State) : State :=
  let s := Storage.print "=== Create New Task ===" s in
  let title := PyStr.strip title_line in
  let description := PyStr.strip description_line in
  let priority := PyStr.lower (PyStr.strip priority_line) in
  let priority :=
    if bool_decide (priority ∉ ["low"; "medium"; "high"])
    then "medium" else priority in
  let task :=
    Task.mk (generate_id uuid) title description priority now false in
  let s := Storage.add_task json_dump task s in
  Storage.print "✅ Task created successfully." s.

Definition header : string :=
  newline +:+ PyStr.ljust 10 "ID" +:+ PyStr.ljust 20 "Title"
  +:+ PyStr.ljust 10 "Priority" +:+ PyStr.ljust 10 "Status".

Definition row (task : Task.t) : string :=
  let status := if Task.completed task then "Done" else "Active" in
  PyStr.ljust 10 (Task.id task)
  +:+ PyStr.ljust 20 (PyStr.slice_to 18 (Task.title task))
  +:+ PyStr.ljust 10 (Task.priority task)
  +:+ PyStr.ljust 10 status.

(** The tasks whose row the loop of [list_tasks] prints. *)
Definition listed (show_all : bool) (l : list Task.t) : list Task.t :=
  filter (λ task, ¬ (negb show_all && Task.completed task)) l.

(** [TaskManager.list_tasks] *)
Definition list_tasks (show_all : bool) (s : State) : State :=
  let tasks := Storage.get_tasks s in
  match tasks with
  | [] => Storage.print "No tasks available." s
  | _ =>
      let s := Storage.print header s in
      let s := Storage.print (PyStr.repeat_char "-"%char 55) s in
      fold_left (λ s task, Storage.print (row task) s) (listed show_all tasks) s
  end.

(** [TaskManager.complete_task]; [line] is the line typed at the prompt. *)
Definition complete_task (line : string) (s : State) : State :=
  let task_id := PyStr.strip line in
  let '(success, s) :=
    Storage.update_task json_dump task_id [SetCompleted true] s in
  if success
  then
    let s := Storage.increment_completed json_dump s in
    Storage.print "🎉 Task marked as completed." s
  else Storage.print "❌ Task not found." s.

(** [TaskManager.delete_task] *)
Definition delete_task (line : string) (s : State) : State :=
  let task_id := PyStr.strip line in
  let '(found, s) := Storage.delete_task json_dump task_id s in
  if found
  then Storage.print "🗑 Task deleted." s
  else Storage.print "❌ Task not found." s.

(** The list [results] of [search_tasks]. *)
Definition search_results (line : string) (l : list Task.t) : list Task.t :=
  let keyword := PyStr.lower (PyStr.strip line) in
  filter
    (λ t, PyStr.contains keyword (PyStr.lower (Task.title t))
          || PyStr.contains keyword (PyStr.lower (Task.description t)))
    l.

(** The same list with [str.lower] left open: [lower] is the method the
    two sides of the test [in] go through. *)
Definition search_results_with (lower : string -> string) (line : string)
    (l : list Task.t) : list Task.t :=
  let keyword := lower (PyStr.strip line) in
  filter
    (λ t, PyStr.contains keyword (lower (Task.title t))
          || PyStr.contains keyword (lower (Task.description t)))
    l.

Definition result_line (task : Task.t) : string :=
  "[" +:+ Task.id task +:+ "] " +:+ Task.title task
  +:+ " (Priority: " +:+ Task.priority task +:+ ")".

(** [TaskManager.search_tasks] *)
Definition search_tasks (line : string) (s : State) : State :=
  let results := search_results line (Storage.get_tasks s) in
  match results with
  | [] => Storage.print "No matching tasks found." s
  | _ =>
      let s := Storage.print (newline +:+ "Search Results:") s in
      fold_left (λ s task, Storage.print (result_line task) s) results s
  end.

(** [TaskManager.show_stats] *)
Definition show_stats (s : State) : State :=
  let stats := Storage.get_stats s in
  let total := length (Storage.get_tasks s) in
  let completed := Stats.completed stats in
  let created := Stats.created stats in
  let s := Storage.print (newline +:+ "=== Statistics ===") s in
  let s := Storage.print ("Total tasks: " +:+ pretty total) s in
  let s := Storage.print ("Tasks created: " +:+ pretty created) s in
  let s := Storage.print ("Tasks completed: " +:+ pretty completed) s in
  if created >? 0
  then
    let rate :=
      PrimFloat.mul (PyFloat.truediv completed created) (PyFloat.of_int 100) in
    Storage.print ("Completion rate: " +:+ PyFloat.format_2f rate +:+ "%") s
  else Storage.print "Completion rate: 0%" s.

(** [plain w] is the contents of a file opened for writing to which the
    string [w] was written. *)
Variable plain : string -> text.

(** What the loop of [export_tasks] writes for one task: six labelled
    lines and a rule of 40 dashes. *)
Definition stanza (task : Task.t) : string :=
  ("ID: " +:+ Task.id task +:+ newline)
  +:+ ("Title: " +:+ Task.title task +:+ newline)
  +:+ ("Description: " +:+ Task.description task +:+ newline)
  +:+ ("Priority: " +:+ Task.priority task +:+ newline)
  +:+ ("Created: " +:+ Task.created_at task +:+ newline)
  +:+ ("Completed: " +:+ (if Task.completed task then "True" else "False")
       +:+ newline)
  +:+ (PyStr.repeat_char "-"%char 40 +:+ newline).

(** The name of the export file; [today] is [str(datetime.date.today())]. *)
Definition export_name (today : string) : string :=
  "tasks_export_" +:+ today +:+ ".txt".

(** [TaskManager.export_tasks] *)
Definition export_tasks (today : string) (s : State) : State :=
  let filename := export_name today in
  let tasks := Storage.get_tasks s in
  let written := fold_left (λ w task, w +:+ stanza task) tasks "" in
  let s :=
    Storage.mkState (Storage.filename s) (Storage.data s)
      (<[filename := Storage.Content (plain written)]> (Storage.disk s))
      (Storage.console s) in
  Storage.print ("📁 Tasks exported to " +:+ filename) s.

End WithJson.
End TaskManager.

(** ** Sequences of operations *)

Module Trace.
Section WithJson.

Context {text : Type}.
Variable json_dump : Data -> text.

Abbreviation State := (Storage.State text).

(** A call of the store: [add_task(task)] or [delete_task(task_id)]. *)
Inductive op :=
  | Add (task : Task.t)
  | Delete (task_id : string).

Definition is_add (o : op) : bool :=
  match o with
  | Add _ => true
  | Delete _ => false
  end.

(** The number of [add_task] calls of a sequence. *)
Definition additions (ops : list op) : nat := length (filter is_add ops).

(** Runs the calls in order; the number is the count of [delete_task]
    calls that returned [True]. *)
Fixpoint run (ops : list op) (s : State) : nat * State :=
  match ops with
  | [] => (O, s)
  | Add task :: rest => run rest (Storage.add_task json_dump task s)
  | Delete task_id :: rest =>
      let '(found, s1) := Storage.delete_task json_dump task_id s in
      let '(n, s2) := run rest s1 in
      ((if found then S n else n), s2)
  end.

(** No [add_task] of the sequence brings an id that a stored task has at
    that moment. *)
Fixpoint adds_fresh (ops : list op) (s : State) : Prop :=
  match ops with
  | [] => True
  | Add task :: rest =>
      (Task.id task ∉ Task.id <$> Storage.get_tasks s)
      ∧ adds_fresh rest (Storage.add_task json_dump task s)
  | Delete task_id :: rest =>
      adds_fresh rest (Storage.delete_task json_dump task_id s).2
  end.

(** What one call of [create_task] consumes: the three lines typed, the
    text of the UUID drawn and the text of the clock. *)
Record creation := mkCreation {
  title_line : string;
  description_line : string;
  priority_line : string;
  uuid : string;
  now : string
}.

Definition create (c : creation) (s : State) : State :=
  TaskManager.create_task json_dump (title_line c) (description_line c)
    (priority_line c) (uuid c) (now c) s.

(** [create_task] called once per element, in order. *)
Definition create_all (cs : list creation) (s : State) : State :=
  fold_left (λ s c, create c s) cs s.

(** One round of the menu of [main]: the choice and what the chosen method
    reads. The export and the screen handling are left out. *)
Inductive command :=
  | Create (c : creation)
  | ListAll
  | ListActive
  | Complete (line : string)
  | Remove (line : string)
  | Search (line : string)
  | Statistics.

Definition exec (c : command) (s : State) : State :=
  match c with
  | Create c => create c s
  | ListAll => TaskManager.list_tasks true s
  | ListActive => TaskManager.list_tasks false s
  | Complete line => TaskManager.complete_task json_dump line s
  | Remove line => TaskManager.delete_task json_dump line s
  | Search line => TaskManager.search_tasks line s
  | Statistics => TaskManager.show_stats s
  end.

Definition exec_all (cs : list command) (s : State) : State :=
  fold_left (λ s c, exec c s) cs s.

End WithJson.
End Trace.

(** ** CLI interface *)

Module Main.
Section WithJson.

Context {text : Type}.
Variable json_dump : Data -> text.
Variable json_load : text -> option Data.
Variable plain : string -> text.

Abbreviation State := (Storage.State text).

Definition DATA_FILE : string := "tasks_data.json".

(** [main_menu] *)
Definition main_menu (s : State) : State :=
  let s := Storage.print (TaskManager.newline +:+ "=== Advanced Task Manager ===") s in
  let s := Storage.print "1. Create Task" s in
  let s := Storage.print "2. List All Tasks" s in
  let s := Storage.print "3. List Active Tasks" s in
  let s := Storage.print "4. Complete Task" s in
  let s := Storage.print "5. Delete Task" s in
  let s := Storage.print "6. Search Tasks" s in
  let s := Storage.print "7. Statistics" s in
  let s := Storage.print "8. Export Tasks" s in
  Storage.print "0. Exit" s.

(** What a run draws from its surroundings in the pass of the loop of a
    given number: the text of the UUID, of the clock and of the date. *)
Record draws := mkDraws {
  uuid_at : nat -> string;
  now_at : nat -> string;
  today_at : nat -> string
}.

(** How [main] ends: after Goodbye, or with the [EOFError] of an [input]
    that finds standard input at its end. *)
Inductive ending :=
  | Exit (s : State)
  | EOFError (s : State).

Definition final (e : ending) : State :=
  match e with
  | Exit s => s
  | EOFError s => s
  end.

(** After one pass of the loop: the next pass, on the lines left, or the
    end. *)
Inductive pass_result :=
  | Continue (s : State) (stdin : list string)
  | Stop (e : ending).

(** [input("\nPress Enter to continue...")] and what follows it. *)
Definition press_enter (s : State) (stdin : list string) : pass_result :=
  match stdin with
  | [] => Stop (EOFError s)
  | _ :: stdin => Continue s stdin
  end.

(** A method that reads one line. *)
Definition with_line (method : string -> State -> State) (s : State)
    (stdin : list string) : pass_result :=
  match stdin with
  | [] => Stop (EOFError s)
  | line :: stdin => press_enter (method line s) stdin
  end.

(** The body of the loop of [main], in the pass of number [k]; the lines
    not yet read are [stdin]. The clearing of the screen leaves the record
    of the lines printed as it is. *)
Definition pass (d : draws) (k : nat) (stdin : list string) (s : State) :
    pass_result :=
  let s := main_menu s in
  match stdin with
  | [] => Stop (EOFError s)
  | line :: stdin =>
      let choice := PyStr.strip line in
      if String.eqb choice "1" then
        match stdin with
        | title :: description :: priority :: stdin =>
            press_enter
              (TaskManager.create_task json_dump title description priority
                 (uuid_at d k) (now_at d k) s)
              stdin
        | _ => Stop (EOFError (Storage.print "=== Create New Task ===" s))
        end
      else if String.eqb choice "2" then
        press_enter (TaskManager.list_tasks true s) stdin
      else if String.eqb choice "3" then
        press_enter (TaskManager.list_tasks false s) stdin
      else if String.eqb choice "4" then
        with_line (TaskManager.complete_task json_dump) s stdin
      else if String.eqb choice "5" then
        with_line (TaskManager.delete_task json_dump) s stdin
      else if String.eqb choice "6" then
        with_line TaskManager.search_tasks s stdin
      else if String.eqb choice "7" then
        press_enter (TaskManager.show_stats s) stdin
      else if String.eqb choice "8" then
        press_enter (TaskManager.export_tasks plain (today_at d k) s) stdin
      else if String.eqb choice "0" then
        Stop (Exit (Storage.print "Goodbye." s))
      else press_enter (Storage.print "Invalid option." s) stdin
  end.

(** The loop of [main] from the pass of number [k] on, for at most [fuel]
    passes. *)
Fixpoint loop (fuel : nat) (d : draws) (k : nat) (stdin : list string)
    (s : State) : option ending :=
  match fuel with
  | O => None
  | S fuel =>
      match pass d k stdin s with
      | Stop e => Some e
      | Continue s stdin => loop fuel d (S k) stdin s
      end
  end.

(** [main], on a given disk and with a blank console. *)
Definition main (fuel : nat) (d : draws) (stdin : list string)
    (dk : gmap string (Storage.file text)) : option ending :=
  loop fuel d 0 stdin (Storage.init json_load DATA_FILE dk []).

End WithJson.

Arguments Exit {text} s.
Arguments EOFError {text} s.
Arguments Continue {text} s stdin.
Arguments Stop {text} e.

End Main.

(** ** Vocabulary of the contracts *)

(** The capital letters, each with its small letter. *)
Definition letter_pairs : list (ascii * ascii) :=
  zip (list_ascii_of_string "ABCDEFGHIJKLMNOPQRSTUVWXYZ")
    (list_ascii_of_string "abcdefghijklmnopqrstuvwxyz").

(** Two characters that are equal when the case of letters is ignored: the
    same character, or a capital letter and its small letter. *)
Definition same_letter (c d : ascii) : Prop :=
  c = d ∨ (c, d) ∈ letter_pairs ∨ (d, c) ∈ letter_pairs.

(** Two texts that are equal when the case of letters is ignored. *)
Inductive same_ignoring_case : string -> string -> Prop :=
  | same_empty : same_ignoring_case "" ""
  | same_String (c d : ascii) (s t : string) :
      same_letter c d → same_ignoring_case s t →
      same_ignoring_case (String c s) (String d t).

(** [k] occurs in [s] when the case of letters is ignored: some stretch of
    [s] is equal to [k] but for the case of letters. *)
Definition occurs_ignoring_case (k s : string) : Prop :=
  ∃ before mid after : string,
    s = before +:+ mid +:+ after ∧ same_ignoring_case mid k.

(** [k] is part of [s], character for character. *)
Definition part_of (k s : string) : Prop :=
  ∃ before after : string, s = before +:+ k +:+ after.


(** A task matches a keyword when the keyword occurs, letter case ignored,
    in its title or in its description. *)
Definition matches (k : string) (t : Task.t) : Prop :=
  occurs_ignoring_case k (Task.title t)
  ∨ occurs_ignoring_case k (Task.description t).


(** The same store on an empty disk with a blank console. *)
Definition bare {text : Type} (s : Storage.State text) : Storage.State text :=
  Storage.mkState (Storage.filename s) (Storage.data s) ∅ [].

(** The value [rate] of [show_stats]. *)
Definition rate (completed created : Z) : float :=
  PrimFloat.mul (PyFloat.truediv completed created) (PyFloat.of_int 100).



(** A task later on: the same id, title, description, priority and
    creation time, and completed if it was. *)
Definition same_but_done (t t' : Task.t) : Prop :=
  Task.id t' = Task.id t
  ∧ Task.title t' = Task.title t
  ∧ Task.description t' = Task.description t
  ∧ Task.priority t' = Task.priority t
  ∧ Task.created_at t' = Task.created_at t
  ∧ (Task.completed t = true → Task.completed t' = true).

Definition is_create (c : Trace.command) : bool :=
  match c with
  | Trace.Create _ => true
  | _ => false
  end.

Definition is_complete (c : Trace.command) : bool :=
  match c with
  | Trace.Complete _ => true
  | _ => false
  end.

(** The rounds that only show something: the two listings, the search and
    the statistics. *)
Definition read_only (c : Trace.command) : bool :=
  match c with
  | Trace.ListAll | Trace.ListActive | Trace.Search _ | Trace.Statistics =>
      true
  | _ => false
  end.

(** The lines a user types for one round of the menu: the choice, what the
    method asks for, and the line that answers Press Enter. *)
Definition typed (c : Trace.command) : list string :=
  match c with
  | Trace.Create c =>
      ["1"; Trace.title_line c; Trace.description_line c;
       Trace.priority_line c; ""]
  | Trace.ListAll => ["2"; ""]
  | Trace.ListActive => ["3"; ""]
  | Trace.Complete line => ["4"; line; ""]
  | Trace.Remove line => ["5"; line; ""]
  | Trace.Search line => ["6"; line; ""]
  | Trace.Statistics => ["7"; ""]
  end.

(** The lines typed for a sequence of rounds. *)
Definition script (cs : list Trace.command) : list string :=
  concat (typed <$> cs).

(** From the pass of number [k] on, the surroundings give each creation of
    the sequence the UUID and the clock it names. *)
Definition draws_agree (d : Main.draws) (k : nat)
    (cs : list Trace.command) : Prop :=
  ∀ i c,
    cs !! i = Some (Trace.Create c) →
    Main.uuid_at d (k + i) = Trace.uuid c
    ∧ Main.now_at d (k + i) = Trace.now c.

(** The three priorities of the data model. *)
Definition priorities : list string := ["low"; "medium"; "high"].

(** A JSON library for the examples: a file holds a dumped value or
    something [json.load] cannot read; loading gives back what was dumped. *)
Definition keep_dump : Data -> option Data := Some.
Definition keep_load : option Data -> option Data := λ t, t.

(** In the library of the examples a file of plain text holds nothing that
    [json.load] can read. *)
Definition keep_plain : string -> option Data := λ _, None.

(** Sample records. *)
Definition milk : Task.t :=
  Task.mk "1a2b3c4d" "Buy groceries" "2% Milk and bread" "medium"
    "2024-05-01 09:30:00" false.

Definition report : Task.t :=
  Task.mk "9f8e7d6c" "Write report" "quarterly numbers" "high"
    "2024-05-02 10:00:00" true.

(** A task with a title in Greek capital letters. *)
Definition sigma_task : Task.t :=
  Task.mk "5e6f7a8b" "ΑΣ" "" "low" "2024-05-03 08:00:00" false.

Definition sample_state : Storage.State (option Data) :=
  Storage.mkState "tasks_data.json" (mkData [milk; report] (Stats.mk 4 1)) ∅ [].

(** A second record under the id of [milk]. *)
Definition milk_again : Task.t :=
  Task.mk "1a2b3c4d" "Buy oat milk" "" "low" "2024-05-03 08:00:00" false.

(** Two additions under one id, then the deletion of that id. *)
Definition twin_adds : list Trace.op :=
  [Trace.Add milk; Trace.Add milk_again; Trace.Delete "1a2b3c4d"].

(** Two creations whose UUIDs differ and begin with the same eight
    characters. *)
Definition first_draw : Trace.creation :=
  Trace.mkCreation "Buy milk" "2% milk" "urgent"
    "deadbeef-0000-4000-8000-000000000001" "2024-05-01 09:30:00".

Definition second_draw : Trace.creation :=
  Trace.mkCreation "Call Ann" "about the trip" "low"
    "deadbeef-0000-4000-8000-000000000002" "2024-05-01 09:31:00".


(** In a second library a file holds the JSON value that [json.load]
    returns, or nothing that it can read. *)
Definition value_load : option Json.value -> option Json.value := λ t, t.


(** A disk whose backing file holds the JSON text of an empty list. *)
Definition list_disk : gmap string (Storage.file (option Json.value)) :=
  {[ "tasks_data.json" := Storage.Content (Some (Json.Arr [])) ]}.

(** A disk whose backing file cannot be opened. *)
Definition locked_disk : gmap string (Storage.file (option Data)) :=
  {[ "tasks_data.json" := Storage.Unreadable ]}.

(** Surroundings that give every pass the UUID and the clock of
    [first_draw]. *)
Definition sample_draws : Main.draws :=
  Main.mkDraws (λ _, Trace.uuid first_draw) (λ _, Trace.now first_draw)
    (λ _, "2024-05-01").

(** A store just started on a disk without files. *)
Definition fresh : Storage.State (option Data) :=
  Storage.init keep_load "tasks_data.json" ∅ [].

(** ** Facts about the string methods *)

Section Strings.

Import PyStr.

Local Arguments String.append !_ _ / : simpl nomatch.

Lemma append_nil_r (s : string) : s +:+ "" = s.
Proof. induction s as [|c s IH]; simpl; [done | by rewrite IH]. Qed.

Lemma append_assoc (a b c : string) : (a +:+ b) +:+ c = a +:+ (b +:+ c).
Proof. induction a as [|x a IH]; simpl; [done | by rewrite IH]. Qed.





Lemma lower_char_idem (c : ascii) : lower_char (lower_char c) = lower_char c.
Proof.
  destruct c as [[] [] [] [] [] [] [] []]; reflexivity.
Qed.

Lemma lower_idem (s : string) : lower (lower s) = lower s.
Proof.
  induction s as [|c s IH]; simpl; [done |].
  by rewrite lower_char_idem, IH.
Qed.


(** [lower_char] leaves a character alone or takes a capital letter to its
    small letter. *)
Lemma lower_char_cases (c : ascii) :
  lower_char c = c ∨ (c, lower_char c) ∈ letter_pairs.
Proof.
  assert (bool_decide (lower_char c = c)
          || bool_decide ((c, lower_char c) ∈ letter_pairs) = true) as H.
  { destruct c as [[] [] [] [] [] [] [] []]; vm_compute; reflexivity. }
  apply orb_true_iff in H as [H | H]; apply bool_decide_eq_true in H; tauto.
Qed.

Lemma lower_char_pair (c d : ascii) :
  (c, d) ∈ letter_pairs → lower_char c = d ∧ lower_char d = d.
Proof.
  assert (Forall (λ p, lower_char p.1 = p.2 ∧ lower_char p.2 = p.2)
            letter_pairs) as H.
  { unfold letter_pairs. cbn. repeat (constructor; [split; reflexivity |]).
    constructor. }
  intros Hin. exact (proj1 (Forall_forall _ _) H (c, d) Hin).
Qed.

(** No two capital letters share their small letter. *)
Lemma letter_pairs_inj (c d x : ascii) :
  (c, x) ∈ letter_pairs → (d, x) ∈ letter_pairs → c = d.
Proof.
  assert (bool_decide
            (Forall (λ p, Forall (λ q, p.2 = q.2 → p.1 = q.1) letter_pairs)
               letter_pairs) = true) as H by (vm_compute; reflexivity).
  apply bool_decide_eq_true in H.
  intros Hc Hd.
  pose proof (proj1 (Forall_forall _ _) H _ Hc) as H1.
  exact (proj1 (Forall_forall _ _) H1 _ Hd eq_refl).
Qed.

(** [lower] forgets exactly the case of letters. *)
Lemma lower_char_same (c d : ascii) :
  lower_char c = lower_char d ↔ same_letter c d.
Proof.
  unfold same_letter. split.
  - intros H.
    destruct (lower_char_cases c) as [Hc | Hc],
             (lower_char_cases d) as [Hd | Hd].
    + left. congruence.
    + right. right. rewrite <- H, Hc in Hd. exact Hd.
    + right. left. rewrite H, Hd in Hc. exact Hc.
    + left. rewrite H in Hc. exact (letter_pairs_inj _ _ _ Hc Hd).
  - intros [-> | [H | H]]; [done | |];
      destruct (lower_char_pair _ _ H) as [H1 H2]; congruence.
Qed.

Lemma lower_same (a b : string) :
  lower a = lower b ↔ same_ignoring_case a b.
Proof.
  revert b. induction a as [|c a IH]; intros [|d b]; simpl.
  - split; [constructor | done].
  - split; [discriminate | inversion 1].
  - split; [discriminate | inversion 1].
  - split.
    + intros H. injection H as Hc Ha. constructor.
      * by apply lower_char_same.
      * by apply IH.
    + inversion 1 as [|? ? ? ? Hc Ha]; subst.
      apply lower_char_same in Hc. apply IH in Ha. congruence.
Qed.








End Strings.

(** ** Facts about the store *)

Section StoreFacts.

Context {text : Type}.
Variable json_dump : Data -> text.
Variable json_load : text -> option Data.

Abbreviation State := (Storage.State text).

(** [task.update({"completed": True})] touches the [completed] key only. *)
Lemma dict_update_completed (t : Task.t) :
  dict_update t [SetCompleted true]
  = Task.mk (Task.id t) (Task.title t) (Task.description t)
      (Task.priority t) (Task.created_at t) true.
Proof. by destruct t. Qed.

(** The loop of [update_task] ends without a hit exactly when no task has
    the id. *)
Lemma update_loop_None (k : string) (u : list entry) (l : list Task.t) :
  Storage.update_loop k u l = None ↔ Forall (λ t, Task.id t ≠ k) l.
Proof.
  induction l as [|t l IH]; simpl.
  - split; [constructor | done].
  - destruct (String.eqb_spec (Task.id t) k) as [Heq|Hne].
    + split; [done | intros H; by inversion H].
    + destruct (Storage.update_loop k u l) eqn:E; simpl.
      * split; [done |]. intros H. inversion H; subst.
        assert (Some l0 = None) by by apply IH. done.
      * split; [| done]. intros _. constructor; [done | by apply IH].
Qed.

(** It updates the first task that has the id, and only that one. *)
Lemma update_loop_first (k : string) (u : list entry)
    (before after : list Task.t) (t : Task.t) :
  Forall (λ t, Task.id t ≠ k) before → Task.id t = k →
  Storage.update_loop k u (before ++ t :: after)
  = Some (before ++ dict_update t u :: after).
Proof.
  intros Hb Ht. induction Hb as [|x before Hx Hb IH]; simpl.
  - by rewrite <- Ht, String.eqb_refl.
  - destruct (String.eqb_spec (Task.id x) k); [done |]. by rewrite IH.
Qed.

(** A list with a task of a given id splits at the first such task. *)
Lemma first_with_id (k : string) (l : list Task.t) :
  (∃ t, t ∈ l ∧ Task.id t = k) →
  ∃ before t after,
    l = before ++ t :: after ∧ Task.id t = k
    ∧ Forall (λ t, Task.id t ≠ k) before.
Proof.
  induction l as [|x l IH]; intros (t & Hin & Ht).
  - by apply elem_of_nil in Hin.
  - destruct (decide (Task.id x = k)) as [Hx|Hx].
    + by exists [], x, l.
    + apply elem_of_cons in Hin as [->|Hin]; [done |].
      destruct IH as (before & t' & after & -> & Ht' & Hb); [by exists t |].
      exists (x :: before), t', after. split_and!; [done | done |].
      by constructor.
Qed.

(** What [delete_task] leaves is as long as the list exactly when no task
    had the id. *)
Lemma filter_length_same (k : string) (l : list Task.t) :
  length (filter (λ t, Task.id t ≠ k) l) = length l
  ↔ Forall (λ t, Task.id t ≠ k) l.
Proof.
  induction l as [|x l IH].
  - split; [constructor | done].
  - rewrite filter_cons. destruct (decide (Task.id x ≠ k)) as [Hx|Hx]; simpl.
    + split.
      * intros H. constructor; [done |]. apply IH. lia.
      * intros H. inversion H; subst. f_equal. by apply IH.
    + split.
      * intros H. pose proof (length_filter (λ t, Task.id t ≠ k) l). lia.
      * intros H. by inversion H.
Qed.

(** With pairwise distinct ids, [delete_task] removes one task when the id
    is there. *)
Lemma filter_length_NoDup (k : string) (l : list Task.t) :
  NoDup (Task.id <$> l) → k ∈ Task.id <$> l →
  S (length (filter (λ t, Task.id t ≠ k) l)) = length l.
Proof.
  induction l as [|x l IH]; intros Hnd Hin.
  - by apply elem_of_nil in Hin.
  - rewrite fmap_cons in Hnd, Hin. apply NoDup_cons in Hnd as [Hx Hnd].
    rewrite filter_cons. destruct (decide (Task.id x ≠ k)) as [Hne|Heq]; simpl.
    + apply elem_of_cons in Hin as [->|Hin]; [done |]. f_equal. by apply IH.
    + apply dec_stable in Heq. subst k. f_equal.
      apply filter_length_same, Forall_forall. intros t Ht Heq.
      apply Hx. rewrite <- Heq. by apply list_elem_of_fmap_2.
Qed.

Lemma filter_ids_NoDup (k : string) (l : list Task.t) :
  NoDup (Task.id <$> l) → NoDup (Task.id <$> filter (λ t, Task.id t ≠ k) l).
Proof.
  intros H. apply (sublist_NoDup _ (Task.id <$> l)); [exact H |].
  apply fmap_sublist, sublist_filter.
Qed.

(** The priority [create_task] keeps for a line typed at the prompt. *)
Lemma create_task_data (title_line description_line priority_line : string)
    (uuid now : string) (s : State) :
  Storage.data
    (TaskManager.create_task json_dump title_line description_line
       priority_line uuid now s)
  = mkData
      (tasks (Storage.data s)
       ++ [Task.mk (generate_id uuid) (PyStr.strip title_line)
             (PyStr.strip description_line)
             (if bool_decide
                   (PyStr.lower (PyStr.strip priority_line)
                    ∉ ["low"; "medium"; "high"])
              then "medium" else PyStr.lower (PyStr.strip priority_line))
             now false])
      (Stats.mk (Stats.created (stats (Storage.data s)) + 1)
         (Stats.completed (stats (Storage.data s)))).
Proof. reflexivity. Qed.

Lemma delete_task_tasks (line : string) (s : State) :
  tasks (Storage.data (TaskManager.delete_task json_dump line s))
  = filter (λ t, Task.id t ≠ PyStr.strip line) (tasks (Storage.data s)).
Proof.
  unfold TaskManager.delete_task, Storage.delete_task. cbn.
  by destruct (negb _).
Qed.

Lemma delete_task_fst (k : string) (s : State) :
  (Storage.delete_task json_dump k s).1
  = negb (length (filter (λ t, Task.id t ≠ k) (tasks (Storage.data s)))
          =? length (tasks (Storage.data s)))%nat.
Proof. unfold Storage.delete_task. cbn. by destruct (negb _). Qed.

Lemma delete_task_snd (k : string) (s : State) :
  tasks (Storage.data (Storage.delete_task json_dump k s).2)
  = filter (λ t, Task.id t ≠ k) (tasks (Storage.data s)).
Proof. unfold Storage.delete_task. cbn. by destruct (negb _). Qed.

(** Along a run whose additions bring fresh ids, every successful deletion
    takes one task away and every addition brings one. *)
Lemma run_length (ops : list Trace.op) (s : State) :
  NoDup (Task.id <$> Storage.get_tasks s) →
  Trace.adds_fresh json_dump ops s →
  (length (Storage.get_tasks (Trace.run json_dump ops s).2)
   + (Trace.run json_dump ops s).1
   = length (Storage.get_tasks s) + Trace.additions ops)%nat.
Proof.
  revert s. induction ops as [|[task|k] ops IH]; intros s Hnd Hfresh.
  - cbn. lia.
  - destruct Hfresh as [Hnew Hfresh].
    change (Trace.run json_dump (Trace.Add task :: ops) s)
      with (Trace.run json_dump ops (Storage.add_task json_dump task s)).
    rewrite IH; [| | exact Hfresh].
    + unfold Trace.additions. rewrite filter_cons_True by done.
      unfold Storage.get_tasks, Storage.add_task. cbn.
      rewrite length_app. cbn. lia.
    + unfold Storage.get_tasks, Storage.add_task. cbn.
      rewrite fmap_app. apply NoDup_app. split_and!; [done | | ].
      * intros x Hx Hx'. apply list_elem_of_singleton in Hx'. by subst.
      * apply NoDup_singleton.
  - cbn in Hfresh.
    change (Trace.run json_dump (Trace.Delete k :: ops) s)
      with (let '(found, s1) := Storage.delete_task json_dump k s in
            let '(n, s2) := Trace.run json_dump ops s1 in
            ((if found then S n else n), s2)).
    unfold Trace.additions in *. rewrite filter_cons_False by (cbn; tauto).
    pose proof (delete_task_fst k s) as H1.
    pose proof (delete_task_snd k s) as H2.
    destruct (Storage.delete_task json_dump k s) as [found s1].
    cbn [fst snd] in *. unfold Storage.get_tasks in *.
    assert (NoDup (Task.id <$> tasks (Storage.data s1))) as Hnd'.
    { rewrite H2. by apply filter_ids_NoDup. }
    specialize (IH s1 Hnd' Hfresh). rewrite H2 in IH.
    destruct (Trace.run json_dump ops s1) as [n s2].
    cbn [fst snd] in *.
    destruct found.
    + symmetry in H1.
      rewrite negb_true_iff, Nat.eqb_neq, filter_length_same in H1.
      assert (k ∈ Task.id <$> tasks (Storage.data s)) as Hin.
      { apply not_Forall_Exists in H1; [| intros; apply _].
        apply Exists_exists in H1 as (t & Hin & Ht).
        apply dec_stable in Ht. subst k. by apply list_elem_of_fmap_2. }
      pose proof (filter_length_NoDup k _ Hnd Hin). lia.
    + symmetry in H1. rewrite negb_false_iff, Nat.eqb_eq in H1. lia.
Qed.


Lemma filter_all {A : Type} (P : A → Prop) `{∀ x, Decision (P x)}
    (l : list A) :
  (∀ x, x ∈ l → P x) → filter P l = l.
Proof.
  induction l as [|x l IH]; intros Hp; [done |].
  rewrite filter_cons, decide_True by (apply Hp; constructor).
  f_equal. apply IH. intros y Hy. apply Hp. by constructor.
Qed.


(** The ids after a run of creations. *)
Lemma create_all_data (cs : list Trace.creation) (s : State) :
  Task.id <$> tasks (Storage.data (Trace.create_all json_dump cs s))
  = (Task.id <$> tasks (Storage.data s))
    ++ ((λ c, generate_id (Trace.uuid c)) <$> cs).
Proof.
  revert s. induction cs as [|c cs IH]; intros s.
  - cbn. by rewrite app_nil_r.
  - change (Trace.create_all json_dump (c :: cs) s)
      with (Trace.create_all json_dump cs (Trace.create json_dump c s)).
    rewrite IH. unfold Trace.create. rewrite create_task_data.
    cbn [tasks]. rewrite fmap_app, <- app_assoc. done.
Qed.




End StoreFacts.

(** ** What a round of the menu depends on *)

Section ExecFacts.

Context {text : Type}.
Variable json_dump : Data -> text.

Abbreviation State := (Storage.State text).

(** A loop that prints one line per task. *)
Lemma print_loop (g : Task.t → string) (l : list Task.t) (s : State) :
  fold_left (λ s t, Storage.print (g t) s) l s
  = Storage.mkState (Storage.filename s) (Storage.data s) (Storage.disk s)
      (Storage.console s ++ (g <$> l)).
Proof.
  revert s. induction l as [|t l IH]; intros s; cbn.
  - rewrite app_nil_r. by destruct s.
  - rewrite IH. cbn. by rewrite <- app_assoc.
Qed.

(** A round changes the data and prints as it does on the bare store, and
    it writes the backing file when it does so there. *)
Lemma exec_bare (c : Trace.command) (s : State) :
  let r := Trace.exec json_dump c s in
  let b := Trace.exec json_dump c (bare s) in
  Storage.filename r = Storage.filename s
  ∧ Storage.filename b = Storage.filename s
  ∧ Storage.data r = Storage.data b
  ∧ Storage.console r = Storage.console s ++ Storage.console b
  ∧ Storage.disk r
    = match Storage.disk b !! Storage.filename s with
      | Some f => <[Storage.filename s := f]> (Storage.disk s)
      | None => Storage.disk s
      end.
Proof.
  destruct s as [name d dk out]. unfold bare. cbn [Storage.filename
    Storage.data Storage.disk Storage.console].
  destruct c as [c | | | line | line | line |]; cbn zeta.
  - cbn. by rewrite lookup_insert_eq, <- !app_assoc.
  - unfold Trace.exec, TaskManager.list_tasks, Storage.get_tasks. cbn.
    destruct (tasks d); [cbn; by rewrite lookup_empty |].
    rewrite !print_loop. cbn. by rewrite lookup_empty, <- !app_assoc.
  - unfold Trace.exec, TaskManager.list_tasks, Storage.get_tasks. cbn.
    destruct (tasks d); [cbn; by rewrite lookup_empty |].
    rewrite !print_loop. cbn. by rewrite lookup_empty, <- !app_assoc.
  - unfold Trace.exec, TaskManager.complete_task, Storage.update_task. cbn.
    destruct (Storage.update_loop _ _ _); cbn.
    + by rewrite !insert_insert_eq, lookup_insert_eq.
    + by rewrite lookup_empty.
  - unfold Trace.exec, TaskManager.delete_task, Storage.delete_task. cbn.
    destruct (negb _); cbn.
    + by rewrite lookup_insert_eq.
    + by rewrite lookup_empty.
  - unfold Trace.exec, TaskManager.search_tasks, Storage.get_tasks. cbn.
    destruct (TaskManager.search_results _ _); [cbn; by rewrite lookup_empty |].
    rewrite !print_loop. cbn. by rewrite lookup_empty, <- !app_assoc.
  - unfold Trace.exec, TaskManager.show_stats. cbn.
    destruct (_ >? 0); cbn; by rewrite lookup_empty, <- !app_assoc.
Qed.




(** A round either leaves data and disk alone or ends on a [save]. *)
Lemma exec_effect (c : Trace.command) (s : State) :
  let r := Trace.exec json_dump c s in
  (Storage.data r = Storage.data s ∧ Storage.disk r = Storage.disk s)
  ∨ Storage.disk r
    = <[Storage.filename s := Storage.Content (json_dump (Storage.data r))]>
        (Storage.disk s).
Proof.
  destruct s as [name d dk out].
  destruct c as [c | | | line | line | line |]; cbn zeta.
  - right. reflexivity.
  - left. unfold Trace.exec, TaskManager.list_tasks, Storage.get_tasks. cbn.
    destruct (tasks d); [done |]. by rewrite !print_loop.
  - left. unfold Trace.exec, TaskManager.list_tasks, Storage.get_tasks. cbn.
    destruct (tasks d); [done |]. by rewrite !print_loop.
  - unfold Trace.exec, TaskManager.complete_task, Storage.update_task. cbn.
    destruct (Storage.update_loop _ _ _); cbn.
    + right. by rewrite insert_insert_eq.
    + by left.
  - unfold Trace.exec, TaskManager.delete_task, Storage.delete_task. cbn.
    destruct (negb _) eqn:Hlen; cbn.
    + by right.
    + left. split; [| done].
      apply negb_false_iff, Nat.eqb_eq, filter_length_same in Hlen.
      destruct d as [l st]. cbn in *. f_equal.
      apply filter_all. intros t Ht.
      by apply (proj1 (Forall_forall _ _) Hlen).
  - left. unfold Trace.exec, TaskManager.search_tasks, Storage.get_tasks. cbn.
    destruct (TaskManager.search_results _ _); [done |].
    by rewrite !print_loop.
  - left. unfold Trace.exec, TaskManager.show_stats. cbn.
    by destruct (_ >? 0).
Qed.

End ExecFacts.





(** ** Contracts of the store and of the task service *)

Section Contracts.

Context {text : Type}.
Variable json_dump : Data -> text.
Variable json_load : text -> option Data.

Abbreviation State := (Storage.State text).

(** C1. In a state that holds a task with the id entered, [complete_task]
    sets [completed] to [True] on that task (the first one with the id, all
    its other keys and all other tasks as they were) and adds exactly 1 to
    the counter of completed tasks; nothing asks whether the task was
    completed before, so the counter also grows on a task already done. *)
Theorem complete_task_known (line : string) (s : State) :
  (∃ t, t ∈ Storage.get_tasks s ∧ Task.id t = PyStr.strip line) →
  ∃ before t after,
    Storage.get_tasks s = before ++ t :: after
    ∧ Task.id t = PyStr.strip line
    ∧ Forall (λ u, Task.id u ≠ PyStr.strip line) before
    ∧ let s' := TaskManager.complete_task json_dump line s in
      Storage.get_tasks s'
      = before
        ++ Task.mk (Task.id t) (Task.title t) (Task.description t)
             (Task.priority t) (Task.created_at t) true
        :: after
      ∧ Stats.completed (Storage.get_stats s')
        = Stats.completed (Storage.get_stats s) + 1
      ∧ Stats.created (Storage.get_stats s')
        = Stats.created (Storage.get_stats s)
      ∧ Storage.console s'
        = Storage.console s ++ ["🎉 Task marked as completed."]
      ∧ Storage.disk s'
        = <[Storage.filename s := Storage.Content (json_dump (Storage.data s'))]>
            (Storage.disk s).
Proof.
  intros Hex.
  destruct (first_with_id _ _ Hex) as (before & t & after & Hl & Ht & Hb).
  exists before, t, after. split_and!; try done.
  unfold TaskManager.complete_task, Storage.update_task.
  unfold Storage.get_tasks in Hl. rewrite Hl.
  rewrite (update_loop_first _ _ _ _ _ Hb Ht), dict_update_completed.
  cbn. split_and!; try done.
  by rewrite insert_insert_eq.
Qed.

(** C2. In a state where no task has the id entered, [update_task] answers
    [False] and [complete_task] only prints that the task was not found:
    the task list, both counters and the file are as before. The answer is
    a value; the function has no other outcome. *)
Theorem complete_task_unknown (line : string) (s : State) :
  (∀ t, t ∈ Storage.get_tasks s → Task.id t ≠ PyStr.strip line) →
  let s' := TaskManager.complete_task json_dump line s in
  Storage.update_task json_dump (PyStr.strip line) [SetCompleted true] s
  = (false, s)
  ∧ s' = Storage.print "❌ Task not found." s
  ∧ Storage.get_tasks s' = Storage.get_tasks s
  ∧ Storage.get_stats s' = Storage.get_stats s
  ∧ Storage.disk s' = Storage.disk s.
Proof.
  intros Hno.
  assert (Storage.update_loop (PyStr.strip line) [SetCompleted true]
            (tasks (Storage.data s)) = None) as Hloop.
  { apply update_loop_None, Forall_forall. exact Hno. }
  unfold TaskManager.complete_task, Storage.update_task.
  rewrite Hloop. cbn. done.
Qed.

(** C10. [delete_task] drops every task that has the id and no other one;
    the tasks that stay are the same records in the same order; counters and
    console are untouched. It answers [True] exactly when some task had the
    id, and the file is written in that case only. After two creations
    under different ids, deleting by the first id leaves exactly the second
    task for [list_tasks] to show. *)
Theorem delete_task_removes_all (task_id : string) (s : State) :
  let r := Storage.delete_task json_dump task_id s in
  Storage.get_tasks r.2
  = filter (λ t, Task.id t ≠ task_id) (Storage.get_tasks s)
  ∧ (∀ t, t ∈ Storage.get_tasks r.2
          ↔ t ∈ Storage.get_tasks s ∧ Task.id t ≠ task_id)
  ∧ Storage.get_tasks r.2 `sublist_of` Storage.get_tasks s
  ∧ (r.1 = true ↔ ∃ t, t ∈ Storage.get_tasks s ∧ Task.id t = task_id)
  ∧ (r.1 = true ↔ length (Storage.get_tasks r.2) < length (Storage.get_tasks s))%nat
  ∧ Storage.get_stats r.2 = Storage.get_stats s
  ∧ Storage.console r.2 = Storage.console s
  ∧ Storage.disk r.2
    = (if r.1
       then <[Storage.filename s := Storage.Content (json_dump (Storage.data r.2))]>
              (Storage.disk s)
       else Storage.disk s)
  ∧ ∀ (c1 c2 : Trace.creation) (line : string) (s0 : State),
      Storage.get_tasks s0 = [] →
      generate_id (Trace.uuid c1) ≠ generate_id (Trace.uuid c2) →
      PyStr.strip line = generate_id (Trace.uuid c1) →
      let s2 := Trace.create json_dump c2 (Trace.create json_dump c1 s0) in
      ∃ t1 t2,
        Storage.get_tasks s2 = [t1; t2]
        ∧ TaskManager.listed true
            (Storage.get_tasks (TaskManager.delete_task json_dump line s2))
          = [t2].
Proof.
  set (l := Storage.get_tasks s).
  assert (Hfound :
    negb (length (filter (λ t, Task.id t ≠ task_id) l) =? length l)%nat = true
    ↔ ∃ t, t ∈ l ∧ Task.id t = task_id).
  { rewrite negb_true_iff, Nat.eqb_neq, filter_length_same. split.
    - intros HF. apply not_Forall_Exists in HF; [| intros; apply _].
      apply Exists_exists in HF as (t & Hin & Ht).
      exists t. split; [done |]. by apply dec_stable.
    - intros (t & Hin & Ht) HF.
      by apply (proj1 (Forall_forall _ _) HF t Hin). }
  pose proof (length_filter (λ t, Task.id t ≠ task_id) l) as Hle.
  unfold Storage.get_tasks in *. subst l.
  unfold Storage.delete_task. cbn.
  set (l := tasks (Storage.data s)) in *.
  set (l' := filter (λ t, Task.id t ≠ task_id) l) in *.
  assert (Hlen : negb (length l' =? length l)%nat = true
                 ↔ (length l' < length l)%nat).
  { rewrite negb_true_iff, Nat.eqb_neq. lia. }
  destruct (negb (length l' =? length l)%nat) eqn:Hb; cbn;
    (split_and!;
     [ done
     | intros t; subst l'; by rewrite list_elem_of_filter, (comm and)
     | apply sublist_filter
     | exact Hfound
     | exact Hlen
     | done
     | done
     | done
     | ]).
  all: clear.
  all: intros c1 c2 line s0 Hs0 Hne Hline;
    unfold Trace.create, Storage.get_tasks in *; rewrite delete_task_tasks;
    rewrite !create_task_data; cbn [tasks]; rewrite Hs0, Hline;
    (eexists _, _; split; [reflexivity |]);
    cbn [app]; rewrite !filter_cons, filter_nil;
    rewrite decide_False by (intros H; by apply H);
    rewrite decide_True by (intros H; apply Hne; symmetry; exact H);
    unfold TaskManager.listed;
    by rewrite filter_cons, filter_nil, decide_True by (cbn; tauto).
Qed.

(** C3, amended. Start from a store without tasks and run any sequence of
    [add_task] and [delete_task] calls in which no addition brings an id
    that a stored task has at that moment. Then the length of the task list
    is the number of additions minus the number of deletions that answered
    [True]. *)
Theorem list_length_counts (ops : list Trace.op) (s : State) :
  Storage.get_tasks s = [] →
  Trace.adds_fresh json_dump ops s →
  Z.of_nat (length (Storage.get_tasks (Trace.run json_dump ops s).2))
  = Z.of_nat (Trace.additions ops) - Z.of_nat (Trace.run json_dump ops s).1.
Proof.
  intros Hempty Hfresh.
  pose proof (run_length json_dump ops s) as H.
  rewrite Hempty in H. specialize (H (NoDup_nil_2) Hfresh).
  cbn in H. lia.
Qed.

(** C5, amended. The priority given is the line typed with the blanks
    around it dropped. [create_task] puts it in lower case and stores the
    result when that is one of low, medium, high, and medium otherwise. So a
    priority given as one of the three words is stored unchanged, urgent is
    stored as medium, and the new task has [completed] at [False]. *)
Theorem create_task_priority
    (title_line description_line priority_line uuid now : string)
    (s : State) :
  let s' :=
    TaskManager.create_task json_dump title_line description_line
      priority_line uuid now s in
  let given := PyStr.strip priority_line in
  ∃ task,
    Storage.get_tasks s' = Storage.get_tasks s ++ [task]
    ∧ Task.priority task
      = (if bool_decide (PyStr.lower given ∈ priorities)
         then PyStr.lower given else "medium")
    ∧ Task.priority task ∈ priorities
    ∧ (given ∈ priorities → Task.priority task = given)
    ∧ (given = "urgent" → Task.priority task = "medium")
    ∧ Task.completed task = false.
Proof.
  cbn zeta. unfold Storage.get_tasks. rewrite create_task_data. cbn [tasks].
  eexists. split; [reflexivity |]. cbn [Task.priority Task.completed].
  set (given := PyStr.strip priority_line).
  set (p := PyStr.lower given).
  assert (given ∈ priorities → p = given) as Hfix.
  { unfold priorities. intros Hin. subst p.
    repeat (apply elem_of_cons in Hin as [->|Hin]; [reflexivity |]).
    by apply elem_of_nil in Hin. }
  change ["low"; "medium"; "high"] with priorities.
  split_and!.
  - destruct (decide (p ∈ priorities)) as [Hin|Hout].
    + by rewrite bool_decide_eq_false_2, bool_decide_eq_true_2 by tauto.
    + by rewrite bool_decide_eq_true_2, bool_decide_eq_false_2.
  - destruct (decide (p ∈ priorities)) as [Hin|Hout].
    + by rewrite bool_decide_eq_false_2 by tauto.
    + rewrite bool_decide_eq_true_2 by done. unfold priorities.
      apply elem_of_cons. right. constructor.
  - intros Hin. rewrite (Hfix Hin).
    rewrite bool_decide_eq_false_2; [done |]. intros Hout. by apply Hout.
  - intros Hu. subst p. rewrite Hu. reflexivity.
  - reflexivity.
Qed.


(** C9, amended. The id of a new task is the first eight characters of a
    UUID drawn at random, and [create_task] never compares it with the ids
    in the store. After any sequence of creations the stored ids are the
    ids that were there followed by the ids drawn, in order: they are
    pairwise distinct exactly when those are, and from a store without
    tasks exactly when the ids drawn are pairwise distinct. *)
Theorem create_all_ids (cs : list Trace.creation) (s : State) :
  let s' := Trace.create_all json_dump cs s in
  let drawn := (λ c, generate_id (Trace.uuid c)) <$> cs in
  Task.id <$> Storage.get_tasks s' = (Task.id <$> Storage.get_tasks s) ++ drawn
  ∧ (NoDup (Task.id <$> Storage.get_tasks s')
     ↔ NoDup ((Task.id <$> Storage.get_tasks s) ++ drawn))
  ∧ (Storage.get_tasks s = [] →
     (NoDup (Task.id <$> Storage.get_tasks s') ↔ NoDup drawn)).
Proof.
  cbn zeta. unfold Storage.get_tasks. rewrite create_all_data.
  split_and!; [done | done |]. by intros ->.
Qed.

(** C4. Provided the JSON library gives back on loading what it dumped,
    [save] followed by [load] on the same file leaves the store as [save]
    left it, with the task list and both counters of the saved state; and
    any store object opened on that file afterwards, whatever it held, has
    the saved state. *)
Theorem save_load_round_trip (s : State) :
  (∀ d, json_load (json_dump d) = Some d) →
  let saved := Storage.save json_dump s in
  Storage.load json_load saved = saved
  ∧ Storage.data (Storage.load json_load saved) = Storage.data s
  ∧ tasks (Storage.data (Storage.load json_load saved)) = tasks (Storage.data s)
  ∧ Stats.created (stats (Storage.data (Storage.load json_load saved)))
    = Stats.created (stats (Storage.data s))
  ∧ Stats.completed (stats (Storage.data (Storage.load json_load saved)))
    = Stats.completed (stats (Storage.data s))
  ∧ (∀ d0 out,
       Storage.load json_load
         (Storage.mkState (Storage.filename s) d0 (Storage.disk saved) out)
       = Storage.mkState (Storage.filename s) (Storage.data s)
           (Storage.disk saved) out)
  ∧ ∀ out,
      Storage.data
        (Storage.init json_load (Storage.filename s) (Storage.disk saved) out)
      = Storage.data s.
Proof.
  intros Hjson saved.
  assert (∀ d0 out,
    Storage.load json_load
      (Storage.mkState (Storage.filename s) d0 (Storage.disk saved) out)
    = Storage.mkState (Storage.filename s) (Storage.data s)
        (Storage.disk saved) out) as Hload.
  { intros d0 out. unfold Storage.load, saved, Storage.save. cbn.
    by rewrite lookup_insert_eq, Hjson. }
  assert (Storage.load json_load saved = saved) as Hsame.
  { specialize (Hload (Storage.data s) (Storage.console s)).
    unfold saved, Storage.save in *. cbn in *. exact Hload. }
  rewrite Hsame. split_and!; try done.
  intros out. unfold Storage.init. by rewrite Hload.
Qed.




End Contracts.

(** The known-id contract at work: the blanks around the id are dropped, the
    first record is marked, the counter goes from 1 to 2. *)
Lemma complete_task_known_sample :
  (∃ t, t ∈ Storage.get_tasks sample_state
        ∧ Task.id t = PyStr.strip " 1a2b3c4d ")
  ∧ Stats.completed
      (Storage.get_stats
         (TaskManager.complete_task keep_dump " 1a2b3c4d " sample_state)) = 2.
Proof.
  assert (∃ t, t ∈ Storage.get_tasks sample_state
               ∧ Task.id t = PyStr.strip " 1a2b3c4d ") as H.
  { exists milk. split; [constructor | reflexivity]. }
  split; [exact H |].
  destruct (complete_task_known keep_dump " 1a2b3c4d " sample_state H)
    as (before & t & after & _ & _ & _ & _ & Hc & _).
  rewrite Hc. reflexivity.
Defined.

(** The unknown-id contract at work. *)
Lemma complete_task_unknown_sample :
  (∀ t, t ∈ Storage.get_tasks sample_state → Task.id t ≠ PyStr.strip "0000")
  ∧ Storage.data (TaskManager.complete_task keep_dump "0000" sample_state)
    = Storage.data sample_state.
Proof.
  assert (∀ t, t ∈ Storage.get_tasks sample_state
               → Task.id t ≠ PyStr.strip "0000") as H.
  { intros t Ht. cbn in Ht.
    apply elem_of_cons in Ht as [->|Ht]; [discriminate |].
    apply list_elem_of_singleton in Ht as ->. discriminate. }
  split; [exact H |].
  destruct (complete_task_unknown keep_dump "0000" sample_state H)
    as (_ & -> & _).
  reflexivity.
Defined.

(** C3 as written fails on two additions under one id: one deletion answers
    [True] and takes both records away. *)
Lemma twin_adds_length :
  let r := Trace.run keep_dump twin_adds fresh in
  length (Storage.get_tasks r.2) = 0%nat
  ∧ Trace.additions twin_adds = 2%nat
  ∧ r.1 = 1%nat
  ∧ Z.of_nat (length (Storage.get_tasks r.2))
    ≠ Z.of_nat (Trace.additions twin_adds) - Z.of_nat r.1.
Proof. vm_compute. split_and!; [reflexivity .. | discriminate]. Qed.

(** The amended count on two additions, a deletion that finds its task and
    one that does not. *)
Lemma list_length_counts_sample :
  let ops :=
    [Trace.Add milk; Trace.Add report; Trace.Delete "1a2b3c4d";
     Trace.Delete "00000000"] in
  Storage.get_tasks fresh = []
  ∧ Trace.adds_fresh keep_dump ops fresh
  ∧ Z.of_nat (length (Storage.get_tasks (Trace.run keep_dump ops fresh).2))
    = Z.of_nat (Trace.additions ops)
      - Z.of_nat (Trace.run keep_dump ops fresh).1.
Proof.
  intros ops.
  assert (Storage.get_tasks fresh = []) as H1 by reflexivity.
  assert (Trace.adds_fresh keep_dump ops fresh) as H2.
  { cbn. split_and!; [| | done].
    - apply not_elem_of_nil.
    - intros H. apply list_elem_of_singleton in H. discriminate. }
  split_and!; [exact H1 | exact H2 |].
  exact (list_length_counts keep_dump ops fresh H1 H2).
Defined.

(** C5 as written fails on a priority typed in capitals: HIGH is none of
    the three words, and the task is stored with high, not with medium. *)
Lemma upper_case_priority :
  let s' :=
    TaskManager.create_task keep_dump "Buy milk" "2% milk" "HIGH"
      "3f2b8c1e-7a90-4d11-9c55-0123456789ab" "2024-05-01 09:30:00" fresh in
  ("HIGH" ∉ priorities)
  ∧ Task.priority <$> Storage.get_tasks s' = ["high"]
  ∧ Task.priority <$> Storage.get_tasks s' ≠ ["medium"].
Proof.
  cbn zeta. split_and!.
  - unfold priorities. intros H.
    repeat (apply elem_of_cons in H as [H|H]; [discriminate |]).
    by apply elem_of_nil in H.
  - reflexivity.
  - discriminate.
Qed.

(** The amended priority rule at work: low typed between blanks is the
    priority low and stays low. *)
Lemma create_task_priority_sample :
  PyStr.strip " low " ∈ priorities
  ∧ Task.priority
    <$> Storage.get_tasks
          (TaskManager.create_task keep_dump "Buy milk" "2% milk" " low "
             "3f2b8c1e-7a90-4d11-9c55-0123456789ab" "2024-05-01 09:30:00"
             fresh)
    = ["low"].
Proof.
  assert (PyStr.strip " low " ∈ priorities) as H.
  { change (PyStr.strip " low ") with "low". unfold priorities. constructor. }
  split; [exact H |].
  destruct (create_task_priority keep_dump "Buy milk" "2% milk" " low "
              "3f2b8c1e-7a90-4d11-9c55-0123456789ab" "2024-05-01 09:30:00"
              fresh) as (task & Htasks & _ & _ & Hkeep & _).
  rewrite Htasks. change ([Task.priority task] = ["low"]). f_equal.
  exact (Hkeep H).
Defined.

(** C6 as written fails on a keyword in Greek capital letters: the title ΑΣ
    has the keyword Σ in it, letter for letter, and the search does not find
    the task, because the lower-case form of the title ends in ς and that of
    the keyword is σ. *)
Lemma capital_sigma_missed :
  part_of "Σ" (Task.title sigma_task)
  ∧ matches (PyStr.strip "Σ") sigma_task
  ∧ PyStr.lower_greek "Σ" = "σ"
  ∧ PyStr.lower_greek (Task.title sigma_task) = "ας"
  ∧ TaskManager.search_results_with PyStr.lower_greek "Σ" [sigma_task] = []
  ∧ ¬ (∀ t, t ∈ TaskManager.search_results_with PyStr.lower_greek "Σ"
                  [sigma_task]
            ↔ t ∈ [sigma_task] ∧ matches (PyStr.strip "Σ") t).
Proof.
  assert (matches (PyStr.strip "Σ") sigma_task) as Hm.
  { left. exists "Α", "Σ", "". split; [reflexivity |].
    by apply lower_same. }
  split_and!.
  - by exists "Α", "".
  - exact Hm.
  - reflexivity.
  - reflexivity.
  - reflexivity.
  - intros H.
    assert (sigma_task ∈ @nil Task.t) as Hin.
    { apply (H sigma_task). split; [constructor | exact Hm]. }
    by apply elem_of_nil in Hin.
Qed.


(** C9 as written fails when two UUIDs that differ begin with the same
    eight characters: both tasks are stored under one id. *)
Lemma equal_prefix_same_id :
  let s' := Trace.create_all keep_dump [first_draw; second_draw] fresh in
  Trace.uuid first_draw ≠ Trace.uuid second_draw
  ∧ Task.id <$> Storage.get_tasks s' = ["deadbeef"; "deadbeef"]
  ∧ ¬ NoDup (Task.id <$> Storage.get_tasks s').
Proof.
  cbn zeta. split_and!.
  - discriminate.
  - reflexivity.
  - change (Task.id <$> Storage.get_tasks
              (Trace.create_all keep_dump [first_draw; second_draw] fresh))
      with ["deadbeef"; "deadbeef"].
    intros H. apply NoDup_cons in H as [H _]. apply H. constructor.
Qed.

(** The amended statement from a store without tasks: three ids drawn, all
    different, three tasks with different ids. *)
Lemma create_all_ids_sample :
  let cs :=
    [first_draw;
     Trace.mkCreation "Call Ann" "" "low"
       "0a1b2c3d-0000-4000-8000-000000000000" "2024-05-01 09:31:00"] in
  Storage.get_tasks fresh = []
  ∧ NoDup (Task.id <$> Storage.get_tasks (Trace.create_all keep_dump cs fresh)).
Proof.
  intros cs.
  assert (Storage.get_tasks fresh = []) as H by reflexivity.
  split; [exact H |].
  destruct (create_all_ids keep_dump cs fresh) as (_ & _ & Hiff).
  apply (Hiff H). cbn.
  apply NoDup_cons. split.
  - intros Hin. apply list_elem_of_singleton in Hin. discriminate.
  - apply NoDup_singleton.
Defined.

(** The round trip with the library that keeps the dumped value. *)
Lemma save_load_round_trip_sample :
  (∀ d, keep_load (keep_dump d) = Some d)
  ∧ Storage.data (Storage.load keep_load (Storage.save keep_dump sample_state))
    = Storage.data sample_state.
Proof.
  assert (∀ d, keep_load (keep_dump d) = Some d) as H by reflexivity.
  split; [exact H |].
  destruct (save_load_round_trip keep_dump keep_load sample_state H)
    as (_ & Hdata & _).
  exact Hdata.
Defined.

(** C8 as written fails on a backing file that holds the JSON text of an
    empty list: [load] takes the list for the state and prints no warning,
    and [self.data["tasks"]] and [self.data["stats"]], with which the
    methods begin, raise [TypeError]. *)
Lemma json_list_accepted :
  let started := Raw.init value_load "tasks_data.json" list_disk [] in
  list_disk !! "tasks_data.json" = Some (Storage.Content (Some (Json.Arr [])))
  ∧ value_load (Some (Json.Arr [])) = Some (Json.Arr [])
  ∧ Raw.data started = Json.Arr []
  ∧ Raw.data started ≠ Json.of_data empty_data
  ∧ Raw.console started = []
  ∧ Raw.get_tasks started = inl Json.TypeError
  ∧ Raw.get_stats started = inl Json.TypeError.
Proof.
  cbn zeta. split_and!; [reflexivity | reflexivity | reflexivity | | | |];
    [discriminate | reflexivity ..].
Qed.


(** Deleting by the id of the first of two tasks leaves the second. *)
Lemma delete_task_removes_all_sample :
  let c2 :=
    Trace.mkCreation "Call Ann" "" "low"
      "0a1b2c3d-0000-4000-8000-000000000000" "2024-05-01 09:31:00" in
  Storage.get_tasks fresh = []
  ∧ generate_id (Trace.uuid first_draw) ≠ generate_id (Trace.uuid c2)
  ∧ PyStr.strip "deadbeef " = generate_id (Trace.uuid first_draw)
  ∧ Task.id
    <$> TaskManager.listed true
          (Storage.get_tasks
             (TaskManager.delete_task keep_dump "deadbeef "
                (Trace.create keep_dump c2
                   (Trace.create keep_dump first_draw fresh))))
    = ["0a1b2c3d"].
Proof.
  intros c2.
  assert (Storage.get_tasks fresh = []) as H1 by reflexivity.
  assert (generate_id (Trace.uuid first_draw) ≠ generate_id (Trace.uuid c2))
    as H2 by discriminate.
  assert (PyStr.strip "deadbeef " = generate_id (Trace.uuid first_draw))
    as H3 by reflexivity.
  split_and!; [exact H1 | exact H2 | exact H3 |].
  destruct (delete_task_removes_all keep_dump "" fresh)
    as (_ & _ & _ & _ & _ & _ & _ & _ & Hscenario).
  destruct (Hscenario first_draw c2 "deadbeef " fresh H1 H2 H3)
    as (t1 & t2 & Htwo & Hleft).
  rewrite Hleft. injection Htwo as _ <-. reflexivity.
Defined.


(** ** Further properties of the store and of the task service *)

Section Further.

Context {text : Type}.
Variable json_dump : Data -> text.
Variable json_load : text -> option Data.
Variable plain : string -> text.

Abbreviation State := (Storage.State text).

(** The data after [complete_task]. *)
Lemma complete_task_data (line : string) (s : State) :
  Storage.data (TaskManager.complete_task json_dump line s)
  = match
      Storage.update_loop (PyStr.strip line) [SetCompleted true]
        (tasks (Storage.data s))
    with
    | Some l =>
        mkData l
          (Stats.mk (Stats.created (stats (Storage.data s)))
             (Stats.completed (stats (Storage.data s)) + 1))
    | None => Storage.data s
    end.
Proof.
  unfold TaskManager.complete_task, Storage.update_task.
  by destruct (Storage.update_loop _ _ _).
Qed.

(** The data after [TaskManager.delete_task]. *)
Lemma delete_task_data (line : string) (s : State) :
  Storage.data (TaskManager.delete_task json_dump line s)
  = mkData
      (filter (λ t, Task.id t ≠ PyStr.strip line) (tasks (Storage.data s)))
      (stats (Storage.data s)).
Proof.
  unfold TaskManager.delete_task, Storage.delete_task. cbn.
  by destruct (negb _).
Qed.

(** A successful run of the loop of [update_task] splits the list at the
    first task with the id. *)
Lemma update_loop_Some (k : string) (u : list entry) (l l' : list Task.t) :
  Storage.update_loop k u l = Some l' →
  ∃ before t after,
    l = before ++ t :: after ∧ Task.id t = k
    ∧ Forall (λ t, Task.id t ≠ k) before
    ∧ l' = before ++ dict_update t u :: after.
Proof.
  revert l'. induction l as [|x l IH]; intros l' H; [discriminate |].
  cbn in H. destruct (String.eqb_spec (Task.id x) k) as [Hx|Hx].
  - injection H as <-. by exists [], x, l.
  - destruct (Storage.update_loop k u l) as [l0|] eqn:E; [| discriminate].
    injection H as <-.
    destruct (IH _ eq_refl) as (before & t & after & -> & Ht & Hb & ->).
    exists (x :: before), t, after. split_and!; try done. by constructor.
Qed.

(** X1. [update_task] with any dictionary of updates answers [True]
    exactly when a task has the id. Then it merges the updates into the
    first task with the id and into no other, keeps the length and the order
    of the list and both counters, and writes the file; otherwise it changes
    nothing at all. *)
Theorem update_task_first_only (task_id : string) (updates : list entry)
    (s : State) :
  let r := Storage.update_task json_dump task_id updates s in
  (r.1 = true ↔ ∃ t, t ∈ Storage.get_tasks s ∧ Task.id t = task_id)
  ∧ length (Storage.get_tasks r.2) = length (Storage.get_tasks s)
  ∧ Storage.get_stats r.2 = Storage.get_stats s
  ∧ Storage.console r.2 = Storage.console s
  ∧ (r.1 = false → r.2 = s)
  ∧ (r.1 = true →
     ∃ before t after,
       Storage.get_tasks s = before ++ t :: after
       ∧ Task.id t = task_id
       ∧ Forall (λ u, Task.id u ≠ task_id) before
       ∧ Storage.get_tasks r.2 = before ++ dict_update t updates :: after
       ∧ Storage.disk r.2
         = <[Storage.filename s
             := Storage.Content (json_dump (Storage.data r.2))]>
             (Storage.disk s)).
Proof.
  unfold Storage.update_task, Storage.get_tasks, Storage.get_stats.
  destruct (Storage.update_loop task_id updates (tasks (Storage.data s)))
    as [l|] eqn:Hloop; cbn.
  - destruct (update_loop_Some _ _ _ _ Hloop)
      as (before & t & after & Hl & Ht & Hb & ->).
    split_and!; try done.
    + split; [intros _ | done]. exists t. split; [| done].
      rewrite Hl. apply elem_of_app. right. constructor.
    + rewrite Hl, !length_app. done.
    + intros _. by exists before, t, after.
  - apply update_loop_None in Hloop.
    split_and!; try done.
    split; [done |]. intros (t & Hin & Ht). exfalso.
    by apply (proj1 (Forall_forall _ _) Hloop t Hin).
Qed.

(** The rounds that only show something leave data and disk alone. *)
Lemma read_only_round (c : Trace.command) (s : State) :
  read_only c = true →
  Storage.data (Trace.exec json_dump c s) = Storage.data s
  ∧ Storage.disk (Trace.exec json_dump c s) = Storage.disk s.
Proof.
  destruct c as [c | | | line | line | line |]; intros Hro; try discriminate;
    cbn [Trace.exec].
  - unfold TaskManager.list_tasks, Storage.get_tasks.
    destruct (tasks (Storage.data s)); [done |]. by rewrite print_loop.
  - unfold TaskManager.list_tasks, Storage.get_tasks.
    destruct (tasks (Storage.data s)); [done |]. by rewrite print_loop.
  - unfold TaskManager.search_tasks.
    destruct (TaskManager.search_results _ _); [done |].
    by rewrite print_loop.
  - unfold TaskManager.show_stats. by destruct (_ >? 0).
Qed.

(** The data after one round of the menu. *)
Lemma exec_data (c : Trace.command) (s : State) :
  Storage.data (Trace.exec json_dump c s)
  = match c with
    | Trace.Create c =>
        Storage.data
          (TaskManager.create_task json_dump (Trace.title_line c)
             (Trace.description_line c) (Trace.priority_line c)
             (Trace.uuid c) (Trace.now c) s)
    | Trace.Complete line =>
        Storage.data (TaskManager.complete_task json_dump line s)
    | Trace.Remove line =>
        Storage.data (TaskManager.delete_task json_dump line s)
    | _ => Storage.data s
    end.
Proof.
  destruct c; try reflexivity; by apply read_only_round.
Qed.

Lemma exec_all_cons (c : Trace.command) (cs : list Trace.command)
    (s : State) :
  Trace.exec_all json_dump (c :: cs) s
  = Trace.exec_all json_dump cs (Trace.exec json_dump c s).
Proof. reflexivity. Qed.

Lemma count_cons {A : Type} (f : A → bool) (x : A) (l : list A) :
  length (filter f (x :: l))
  = ((if f x then 1 else 0) + length (filter f l))%nat.
Proof. rewrite filter_cons. by destruct (f x). Qed.

(** X2. Over any sequence of menu rounds the counter of creations grows by
    exactly the number of creation rounds, the counter of completions never
    shrinks and grows by at most the number of completion rounds, and the
    task list grows by at most the number of creation rounds. *)
Theorem counters_follow_rounds (cs : list Trace.command) (s : State) :
  let s' := Trace.exec_all json_dump cs s in
  Stats.created (Storage.get_stats s')
  = Stats.created (Storage.get_stats s) + Z.of_nat (length (filter is_create cs))
  ∧ Stats.completed (Storage.get_stats s)
    <= Stats.completed (Storage.get_stats s')
    <= Stats.completed (Storage.get_stats s)
       + Z.of_nat (length (filter is_complete cs))
  ∧ (length (Storage.get_tasks s')
     ≤ length (Storage.get_tasks s) + length (filter is_create cs))%nat.
Proof.
  cbn zeta. unfold Storage.get_stats, Storage.get_tasks.
  revert s. induction cs as [|c cs IH]; intros s.
  - cbn. lia.
  - rewrite exec_all_cons.
    destruct (IH (Trace.exec json_dump c s)) as (Hcr & Hco & Hlen).
    rewrite Hcr. rewrite !count_cons. clear IH Hcr.
    set (n_create := length (filter is_create cs)) in *.
    set (n_complete := length (filter is_complete cs)) in *.
    clearbody n_create n_complete.
    rewrite exec_data in Hco, Hlen |- *.
    destruct c as [c | | | line | line | line |]; cbn [is_create is_complete].
    + rewrite create_task_data in *. cbn in *.
      rewrite length_app in Hlen. cbn in Hlen. lia.
    + lia.
    + lia.
    + rewrite complete_task_data in *.
      destruct (Storage.update_loop _ _ _) as [l|] eqn:Hloop; cbn in *.
      * destruct (update_loop_Some _ _ _ _ Hloop)
          as (before & t & after & Hl & _ & _ & ->).
        rewrite Hl in *. rewrite !length_app in *. cbn in *. lia.
      * lia.
    + rewrite delete_task_data in *. cbn in *.
      pose proof (length_filter (λ t, Task.id t ≠ PyStr.strip line)
                    (tasks (Storage.data s))).
      lia.
    + lia.
    + lia.
Qed.

(** X3. A store that holds no more tasks than it counts creations stays so
    through every sequence of menu rounds. *)
Theorem total_at_most_created (cs : list Trace.command) (s : State) :
  Z.of_nat (length (Storage.get_tasks s)) <= Stats.created (Storage.get_stats s) →
  let s' := Trace.exec_all json_dump cs s in
  Z.of_nat (length (Storage.get_tasks s'))
  <= Stats.created (Storage.get_stats s').
Proof.
  cbn zeta. unfold Storage.get_stats, Storage.get_tasks.
  revert s. induction cs as [|c cs IH]; intros s Hs; [exact Hs |].
  rewrite exec_all_cons. apply IH. rewrite exec_data.
  destruct c as [c | | | line | line | line |]; try exact Hs.
  - rewrite create_task_data. cbn. rewrite length_app. cbn. lia.
  - rewrite complete_task_data.
    destruct (Storage.update_loop _ _ _) as [l|] eqn:Hloop; cbn; [| exact Hs].
    destruct (update_loop_Some _ _ _ _ Hloop)
      as (before & t & after & Hl & _ & _ & ->).
    rewrite Hl in Hs. rewrite !length_app in *. cbn in *. lia.
  - rewrite delete_task_data. cbn.
    pose proof (length_filter (λ t, Task.id t ≠ PyStr.strip line)
                  (tasks (Storage.data s))).
    lia.
Qed.

Lemma same_but_done_refl (t : Task.t) : same_but_done t t.
Proof. by repeat split. Qed.

Lemma same_but_done_trans (t1 t2 t3 : Task.t) :
  same_but_done t1 t2 → same_but_done t2 t3 → same_but_done t1 t3.
Proof.
  intros (H1 & H2 & H3 & H4 & H5 & H6) (K1 & K2 & K3 & K4 & K5 & K6).
  repeat split; try congruence. auto.
Qed.

Lemma Forall2_same_but_done_refl (l : list Task.t) :
  Forall2 same_but_done l l.
Proof.
  induction l; constructor; [apply same_but_done_refl | done].
Qed.

Lemma Forall2_same_but_done_trans (l1 l2 l3 : list Task.t) :
  Forall2 same_but_done l1 l2 → Forall2 same_but_done l2 l3 →
  Forall2 same_but_done l1 l3.
Proof.
  intros H. revert l3. induction H as [|x y l1 l2 Hxy H IH]; intros l3 H3.
  - inversion H3. constructor.
  - inversion H3 as [|? z ? l3' Hyz H3']; subst. constructor.
    + by apply (same_but_done_trans x y z).
    + by apply IH.
Qed.

(** A sublist of the later list comes from a sublist of the earlier one. *)
Lemma Forall2_sublist_back {A B : Type} (R : A → B → Prop)
    (k : list A) (k' a' : list B) :
  a' `sublist_of` k' → Forall2 R k k' →
  ∃ a, a `sublist_of` k ∧ Forall2 R a a'.
Proof.
  intros Hsub. revert k.
  induction Hsub as [|x l1 l2 Hsub IH|x l1 l2 Hsub IH]; intros k HF.
  - inversion HF. exists []. split; constructor.
  - inversion HF as [|y ? k0 ? Hyx HF0]; subst.
    destruct (IH _ HF0) as (a & Ha & HFa).
    exists (y :: a). split; by constructor.
  - inversion HF as [|y ? k0 ? Hyx HF0]; subst.
    destruct (IH _ HF0) as (a & Ha & HFa).
    exists a. split; [by constructor | done].
Qed.

(** What one round does to the task list. *)
Lemma exec_tasks (c : Trace.command) (s : State) :
  ∃ kept kept' new,
    kept `sublist_of` tasks (Storage.data s)
    ∧ Forall2 same_but_done kept kept'
    ∧ tasks (Storage.data (Trace.exec json_dump c s)) = kept' ++ new
    ∧ (length new ≤ if is_create c then 1 else 0)%nat.
Proof.
  rewrite exec_data.
  assert (∃ kept kept' new,
            kept `sublist_of` tasks (Storage.data s)
            ∧ Forall2 same_but_done kept kept'
            ∧ tasks (Storage.data s) = kept' ++ new
            ∧ (length new ≤ 0)%nat) as Hsame.
  { exists (tasks (Storage.data s)), (tasks (Storage.data s)), [].
    split_and!; [done | apply Forall2_same_but_done_refl
                | by rewrite app_nil_r | done]. }
  destruct c as [c | | | line | line | line |]; cbn [is_create];
    try exact Hsame.
  - rewrite create_task_data. cbn [tasks].
    eexists (tasks (Storage.data s)), (tasks (Storage.data s)), [_].
    split_and!; [done | apply Forall2_same_but_done_refl | done | done].
  - rewrite complete_task_data.
    destruct (Storage.update_loop _ _ _) as [l|] eqn:Hloop; [| exact Hsame].
    destruct (update_loop_Some _ _ _ _ Hloop)
      as (before & t & after & Hl & _ & _ & ->).
    exists (tasks (Storage.data s)),
      (before ++ dict_update t [SetCompleted true] :: after), [].
    cbn [tasks]. split_and!; [done | | by rewrite app_nil_r | done].
    rewrite Hl. apply Forall2_app; [apply Forall2_same_but_done_refl |].
    constructor; [| apply Forall2_same_but_done_refl].
    rewrite dict_update_completed. by repeat split.
  - rewrite delete_task_data. cbn [tasks].
    exists (filter (λ t, Task.id t ≠ PyStr.strip line)
              (tasks (Storage.data s))),
      (filter (λ t, Task.id t ≠ PyStr.strip line) (tasks (Storage.data s))),
      [].
    split_and!;
      [apply sublist_filter | apply Forall2_same_but_done_refl
      | by rewrite app_nil_r | done].
Qed.

(** X4. Through any sequence of menu rounds the tasks are only ever marked
    as completed or removed: the tasks of the beginning that are still
    stored have their id, title, description, priority and creation time,
    are completed if they were, stand in their old order, and come before
    the tasks created since, which are at most as many as the creation
    rounds. *)
Theorem tasks_only_get_done (cs : list Trace.command) (s : State) :
  ∃ kept kept' new,
    kept `sublist_of` Storage.get_tasks s
    ∧ Forall2 same_but_done kept kept'
    ∧ Storage.get_tasks (Trace.exec_all json_dump cs s) = kept' ++ new
    ∧ (length new ≤ length (filter is_create cs))%nat.
Proof.
  unfold Storage.get_tasks. revert s.
  induction cs as [|c cs IH]; intros s.
  - exists (tasks (Storage.data s)), (tasks (Storage.data s)), [].
    split_and!; [done | apply Forall2_same_but_done_refl
                | by rewrite app_nil_r | done].
  - rewrite exec_all_cons, count_cons.
    destruct (exec_tasks c s) as (k0 & k0' & n0 & Hk0 & HF0 & Ht0 & Hn0).
    destruct (IH (Trace.exec json_dump c s))
      as (k1 & k1' & n1 & Hk1 & HF1 & Ht1 & Hn1).
    rewrite Ht0 in Hk1.
    apply sublist_app_r in Hk1 as (a & b & -> & Ha & Hb).
    apply Forall2_app_inv_l in HF1 as (a' & b' & HFa & HFb & ->).
    destruct (Forall2_sublist_back _ _ _ _ Ha HF0) as (a0 & Ha0 & HFa0).
    exists a0, a', (b' ++ n1).
    split_and!.
    + by etrans.
    + by apply (Forall2_same_but_done_trans a0 a a').
    + by rewrite Ht1, <- app_assoc.
    + rewrite length_app. apply Forall2_length in HFb.
      apply sublist_length in Hb.
      destruct (is_create c); lia.
Qed.

(** X5. Every change of the data is written at once: after any sequence of
    menu rounds either data and disk are exactly as before, or the backing
    file holds the dump of the data now in memory. No round renames the
    store or touches another file, and the listings, the search and the
    statistics change neither data nor disk. *)
Theorem rounds_keep_file_in_step (cs : list Trace.command) (s : State) :
  let s' := Trace.exec_all json_dump cs s in
  Storage.filename s' = Storage.filename s
  ∧ ((Storage.data s' = Storage.data s ∧ Storage.disk s' = Storage.disk s)
     ∨ Storage.disk s' !! Storage.filename s
       = Some (Storage.Content (json_dump (Storage.data s'))))
  ∧ (∀ name, name ≠ Storage.filename s →
       Storage.disk s' !! name = Storage.disk s !! name)
  ∧ (forallb read_only cs = true →
     Storage.data s' = Storage.data s ∧ Storage.disk s' = Storage.disk s).
Proof.
  cbn zeta. revert s. induction cs as [|c cs IH]; intros s.
  - split_and!; [done | by left | done | done].
  - rewrite exec_all_cons.
    destruct (IH (Trace.exec json_dump c s)) as (Hname & Hstep & Hother & Hro).
    destruct (exec_bare json_dump c s) as (Hn1 & _).
    rewrite Hn1 in *. split_and!.
    + exact Hname.
    + destruct Hstep as [[Hd Hk] | Hsync]; [| by right].
      destruct (exec_effect json_dump c s) as [[Hd1 Hk1] | Hk1].
      * left. by rewrite Hd, Hk, Hd1, Hk1.
      * right. by rewrite Hk, Hk1, lookup_insert_eq, Hd.
    + intros name Hne. rewrite (Hother name Hne).
      destruct (exec_effect json_dump c s) as [[_ ->] | ->]; [done |].
      by rewrite lookup_insert_ne.
    + cbn [forallb]. intros [Hc Hcs]%andb_prop.
      destruct (Hro Hcs) as [-> ->]. by apply read_only_round.
Qed.

(** X7. Deleting twice by the same id: the second [delete_task] finds
    nothing, prints that the task was not found and leaves the store as the
    first left it. *)
Theorem delete_task_twice (line : string) (s : State) :
  let s1 := TaskManager.delete_task json_dump line s in
  TaskManager.delete_task json_dump line s1
  = Storage.print "❌ Task not found." s1.
Proof.
  cbn zeta.
  set (s1 := TaskManager.delete_task json_dump line s).
  assert (∀ t, t ∈ tasks (Storage.data s1) → Task.id t ≠ PyStr.strip line)
    as Hgone.
  { unfold s1. rewrite delete_task_tasks.
    intros t Ht. by apply list_elem_of_filter in Ht as [Ht _]. }
  clearbody s1.
  unfold TaskManager.delete_task, Storage.delete_task. cbn.
  match goal with
  | |- context [filter ?P (tasks (Storage.data s1))] =>
      rewrite (filter_all P (tasks (Storage.data s1)) Hgone)
  end.
  rewrite Nat.eqb_refl. cbn.
  by destruct s1 as [? [? ?] ? ?].
Qed.

(** X8. A creation followed by the deletion of the id just drawn, when no
    stored task had that id: the task list is the one before the creation,
    while the counter of creations keeps the creation. *)
Theorem create_then_delete (c : Trace.creation) (line : string) (s : State) :
  generate_id (Trace.uuid c) ∉ Task.id <$> Storage.get_tasks s →
  PyStr.strip line = generate_id (Trace.uuid c) →
  let s' :=
    TaskManager.delete_task json_dump line (Trace.create json_dump c s) in
  Storage.get_tasks s' = Storage.get_tasks s
  ∧ Stats.created (Storage.get_stats s')
    = Stats.created (Storage.get_stats s) + 1
  ∧ Stats.completed (Storage.get_stats s')
    = Stats.completed (Storage.get_stats s).
Proof.
  intros Hfresh Hline. cbn zeta.
  unfold Storage.get_tasks, Storage.get_stats, Trace.create in *.
  rewrite delete_task_data, create_task_data. cbn [tasks stats].
  split_and!; [| done | done].
  rewrite filter_app, filter_cons, filter_nil, Hline.
  rewrite decide_False by (intros H; by apply H).
  rewrite app_nil_r. apply filter_all. intros t Ht Heq.
  apply Hfresh. rewrite <- Heq. by apply list_elem_of_fmap_2.
Qed.


(** X10. With pairwise distinct ids in the store, completing a stored id
    takes exactly the task of that id out of the listing of active tasks and
    leaves the listing of all tasks as long as it was. *)
Theorem complete_then_list_active (line : string) (s : State) :
  NoDup (Task.id <$> Storage.get_tasks s) →
  PyStr.strip line ∈ Task.id <$> Storage.get_tasks s →
  let s' := TaskManager.complete_task json_dump line s in
  TaskManager.listed false (Storage.get_tasks s')
  = filter (λ t, Task.id t ≠ PyStr.strip line)
      (TaskManager.listed false (Storage.get_tasks s))
  ∧ length (TaskManager.listed true (Storage.get_tasks s'))
    = length (TaskManager.listed true (Storage.get_tasks s)).
Proof.
  intros Hnd Hin. cbn zeta. unfold Storage.get_tasks in *.
  rewrite complete_task_data.
  apply list_elem_of_fmap in Hin as (t0 & Hid & Hin0).
  destruct (first_with_id (PyStr.strip line) (tasks (Storage.data s)))
    as (before & t & after & Hl & Ht & Hb); [by exists t0 |].
  rewrite Hl, (update_loop_first _ _ _ _ _ Hb Ht), dict_update_completed.
  cbn [tasks]. rewrite Hl in Hnd.
  rewrite fmap_app, fmap_cons in Hnd.
  apply NoDup_app in Hnd as (_ & Hdisj & Hnd).
  apply NoDup_cons in Hnd as (Hafter & _).
  assert (Forall (λ u, Task.id u ≠ PyStr.strip line) after) as Ha.
  { apply Forall_forall. intros u Hu Heq. apply Hafter.
    rewrite Ht, <- Heq. by apply list_elem_of_fmap_2. }
  unfold TaskManager.listed. split.
  - rewrite !filter_app, !filter_cons. cbn [negb andb Task.completed].
    rewrite decide_False by (intros H; by apply H).
    rewrite (filter_all (λ u, Task.id u ≠ PyStr.strip line)
               (filter _ before)).
    2:{ intros u Hu. apply list_elem_of_filter in Hu as [_ Hu].
        by apply (proj1 (Forall_forall _ _) Hb). }
    f_equal.
    case_decide.
    + rewrite filter_cons, decide_False by (intros H'; by apply H').
      symmetry. apply filter_all. intros u Hu.
      apply list_elem_of_filter in Hu as [_ Hu].
      by apply (proj1 (Forall_forall _ _) Ha).
    + symmetry. apply filter_all. intros u Hu.
      apply list_elem_of_filter in Hu as [_ Hu].
      by apply (proj1 (Forall_forall _ _) Ha).
  - rewrite !filter_all by (intros u _; cbn; exact (λ F : False, F)).
    by rewrite !length_app.
Qed.

(** *** What is typed counts without its blanks and without its case *)

Lemma rstrip_cons (c : ascii) (r : string) :
  PyStr.rstrip (String c r)
  = match PyStr.rstrip r with
    | EmptyString =>
        if PyStr.isspace c then EmptyString else String c EmptyString
    | r' => String c r'
    end.
Proof. reflexivity. Qed.

Lemma rstrip_idem (s : string) : PyStr.rstrip (PyStr.rstrip s) = PyStr.rstrip s.
Proof.
  induction s as [|c r IH]; [done |]. rewrite (rstrip_cons c r).
  destruct (PyStr.rstrip r) as [|d r'] eqn:Hr.
  - destruct (PyStr.isspace c) eqn:Hc; [done |].
    rewrite rstrip_cons. cbn [PyStr.rstrip]. by rewrite Hc.
  - rewrite rstrip_cons, IH. done.
Qed.

(** What [lstrip] leaves does not begin with a blank. *)
Lemma lstrip_head (s : string) :
  PyStr.lstrip s = ""
  ∨ ∃ c r, PyStr.lstrip s = String c r ∧ PyStr.isspace c = false.
Proof.
  induction s as [|c r IH]; [by left |]. cbn [PyStr.lstrip].
  destruct (PyStr.isspace c) eqn:Hc; [exact IH |].
  right. by exists c, r.
Qed.

Lemma lstrip_rstrip_head (c : ascii) (r : string) :
  PyStr.isspace c = false →
  PyStr.lstrip (PyStr.rstrip (String c r)) = PyStr.rstrip (String c r).
Proof.
  intros Hc. rewrite rstrip_cons.
  destruct (PyStr.rstrip r); rewrite ?Hc; cbn [PyStr.lstrip]; by rewrite Hc.
Qed.

Lemma strip_idem (s : string) : PyStr.strip (PyStr.strip s) = PyStr.strip s.
Proof.
  unfold PyStr.strip.
  destruct (lstrip_head s) as [-> | (c & r & -> & Hc)]; [done |].
  by rewrite (lstrip_rstrip_head c r Hc), rstrip_idem.
Qed.

Lemma isspace_lower_char (c : ascii) :
  PyStr.isspace (PyStr.lower_char c) = PyStr.isspace c.
Proof. destruct c as [[] [] [] [] [] [] [] []]; reflexivity. Qed.

Lemma lower_lstrip (s : string) :
  PyStr.lstrip (PyStr.lower s) = PyStr.lower (PyStr.lstrip s).
Proof.
  induction s as [|c r IH]; [done |]. cbn [PyStr.lower PyStr.lstrip].
  rewrite isspace_lower_char. by destruct (PyStr.isspace c).
Qed.

Lemma lower_rstrip (s : string) :
  PyStr.rstrip (PyStr.lower s) = PyStr.lower (PyStr.rstrip s).
Proof.
  induction s as [|c r IH]; [done |]. cbn [PyStr.lower].
  rewrite !rstrip_cons, IH, isspace_lower_char.
  destruct (PyStr.rstrip r); cbn [PyStr.lower];
    by destruct (PyStr.isspace c).
Qed.

Lemma lower_strip (s : string) :
  PyStr.strip (PyStr.lower s) = PyStr.lower (PyStr.strip s).
Proof. unfold PyStr.strip. by rewrite lower_lstrip, lower_rstrip. Qed.

(** X11. The methods take what is typed without the blanks around it, and
    the keyword and the priority without regard to the case of letters:
    typing a line already stripped, a keyword in lower case or a priority in
    lower case gives the same state, console included. *)
Theorem blanks_and_case_ignored (line title description priority uuid now :
    string) (s : State) :
  TaskManager.complete_task json_dump (PyStr.strip line) s
  = TaskManager.complete_task json_dump line s
  ∧ TaskManager.delete_task json_dump (PyStr.strip line) s
    = TaskManager.delete_task json_dump line s
  ∧ TaskManager.search_tasks (PyStr.strip line) s
    = TaskManager.search_tasks line s
  ∧ TaskManager.search_tasks (PyStr.lower line) s
    = TaskManager.search_tasks line s
  ∧ TaskManager.create_task json_dump (PyStr.strip title)
      (PyStr.strip description) (PyStr.strip priority) uuid now s
    = TaskManager.create_task json_dump title description priority uuid now s
  ∧ TaskManager.create_task json_dump title description
      (PyStr.lower priority) uuid now s
    = TaskManager.create_task json_dump title description priority uuid now s.
Proof.
  split_and!.
  - unfold TaskManager.complete_task. by rewrite strip_idem.
  - unfold TaskManager.delete_task. by rewrite strip_idem.
  - unfold TaskManager.search_tasks, TaskManager.search_results.
    by rewrite strip_idem.
  - unfold TaskManager.search_tasks, TaskManager.search_results.
    by rewrite lower_strip, lower_idem.
  - unfold TaskManager.create_task. by rewrite !strip_idem.
  - unfold TaskManager.create_task. by rewrite lower_strip, lower_idem.
Qed.

(** *** What the listings and the search print *)

(** X12. [list_tasks] changes neither data nor disk. On a store without
    tasks it prints that no tasks are available; otherwise it prints the
    header, the rule and one row per task shown, in the order of the store:
    every task when all are asked for, the tasks not completed otherwise.
    When every task is completed the listing of active tasks still prints
    header and rule, with no row under them. *)
Theorem list_tasks_prints (show_all : bool) (s : State) :
  let r := TaskManager.list_tasks show_all s in
  let l := Storage.get_tasks s in
  Storage.data r = Storage.data s
  ∧ Storage.disk r = Storage.disk s
  ∧ (l = [] → Storage.console r = Storage.console s ++ ["No tasks available."])
  ∧ (l ≠ [] →
     Storage.console r
     = Storage.console s
       ++ TaskManager.header :: PyStr.repeat_char "-"%char 55
          :: (TaskManager.row <$> TaskManager.listed show_all l))
  ∧ TaskManager.listed true l = l
  ∧ (∀ t, t ∈ TaskManager.listed false l ↔ t ∈ l ∧ Task.completed t = false)
  ∧ TaskManager.listed false l `sublist_of` l
  ∧ (Forall (λ t, Task.completed t = true) l →
     TaskManager.listed false l = []).
Proof.
  cbn zeta. unfold TaskManager.list_tasks, Storage.get_tasks.
  split_and!.
  - destruct (tasks (Storage.data s)); [done |]. by rewrite print_loop.
  - destruct (tasks (Storage.data s)); [done |]. by rewrite print_loop.
  - by intros ->.
  - intros Hne. destruct (tasks (Storage.data s)) as [|t l]; [done |].
    rewrite print_loop. cbn. by rewrite <- !app_assoc.
  - apply filter_all. intros t _. cbn. tauto.
  - intros t. unfold TaskManager.listed. rewrite list_elem_of_filter. cbn.
    destruct (Task.completed t); cbn; split; intros [H1 H2];
      (done || (split; [done |]; tauto) || (by exfalso; apply H1) || idtac).
    split; [intros H; exact H | done].
  - apply sublist_filter.
  - intros Hall. unfold TaskManager.listed.
    induction Hall as [|t l Ht Hall IH]; [done |].
    rewrite filter_cons, decide_False; [exact IH |].
    cbn. rewrite Ht. cbn. tauto.
Qed.

(** X13. [search_tasks] changes neither data nor disk. Without a match it
    prints that no matching tasks were found; otherwise it prints the
    heading and one line per match, with id, title and priority, in the
    order of the store. *)
Theorem search_tasks_prints (line : string) (s : State) :
  let r := TaskManager.search_tasks line s in
  let results := TaskManager.search_results line (Storage.get_tasks s) in
  Storage.data r = Storage.data s
  ∧ Storage.disk r = Storage.disk s
  ∧ (results = [] →
     Storage.console r = Storage.console s ++ ["No matching tasks found."])
  ∧ (results ≠ [] →
     Storage.console r
     = Storage.console s
       ++ (TaskManager.newline +:+ "Search Results:")
          :: (TaskManager.result_line <$> results)).
Proof.
  cbn zeta. unfold TaskManager.search_tasks.
  destruct (TaskManager.search_results line (Storage.get_tasks s))
    as [|t l] eqn:Hres.
  - by split_and!.
  - rewrite print_loop. cbn. split_and!; try done.
    intros _. by rewrite <- app_assoc.
Qed.

Lemma length_append (a b : string) :
  String.length (a +:+ b) = (String.length a + String.length b)%nat.
Proof.
  induction a as [|c a IH]; [done |].
  change (String c a +:+ b) with (String c (a +:+ b)). cbn. by rewrite IH.
Qed.

Lemma length_repeat_char (c : ascii) (n : nat) :
  String.length (PyStr.repeat_char c n) = n.
Proof. induction n as [|n IH]; [done |]. cbn. by rewrite IH. Qed.

Lemma length_ljust (w : nat) (s : string) :
  String.length (PyStr.ljust w s) = (w `max` String.length s)%nat.
Proof.
  unfold PyStr.ljust. rewrite length_append, length_repeat_char. lia.
Qed.

Lemma length_slice_to (n : nat) (s : string) :
  String.length (PyStr.slice_to n s) = (n `min` String.length s)%nat.
Proof.
  revert s. induction n as [|n IH]; intros [|c s]; try done.
  cbn. by rewrite IH.
Qed.

(** X14. A row of the listing is as wide as its four columns: 10 for the
    id, 20 for the title, which is cut after 18 characters, 10 for the
    priority and 10 for the status; only an id or a priority of more than
    10 characters widens it. The row of a task made by [create_task] is
    always 50 characters wide, as wide as the header under its line break. *)
Theorem row_width (t : Task.t)
    (title description priority uuid now : string) (s : State) :
  String.length (TaskManager.row t)
  = ((10 `max` String.length (Task.id t)) + 20
     + (10 `max` String.length (Task.priority t)) + 10)%nat
  ∧ String.length TaskManager.header = 51%nat
  ∧ ∃ task,
      Storage.get_tasks
        (TaskManager.create_task json_dump title description priority uuid
           now s)
      = Storage.get_tasks s ++ [task]
      ∧ String.length (TaskManager.row task) = 50%nat.
Proof.
  assert (∀ t, String.length (TaskManager.row t)
               = ((10 `max` String.length (Task.id t)) + 20
                  + (10 `max` String.length (Task.priority t)) + 10)%nat)
    as Hrow.
  { intros u. unfold TaskManager.row.
    rewrite !length_append, !length_ljust, length_slice_to.
    destruct (Task.completed u); cbn [String.length]; lia. }
  split_and!; [apply Hrow | reflexivity |].
  unfold Storage.get_tasks. rewrite create_task_data. cbn [tasks].
  eexists. split; [reflexivity |]. rewrite Hrow.
  cbn [Task.id Task.priority]. unfold generate_id. rewrite length_slice_to.
  set (p := PyStr.lower (PyStr.strip priority)).
  assert (String.length
            (if bool_decide (p ∉ ["low"; "medium"; "high"])
             then "medium" else p) ≤ 6)%nat as Hp.
  { case_bool_decide as Hin; [cbn; lia |].
    repeat (apply elem_of_cons in Hin as [->|Hin]; [cbn; lia |]).
    by apply elem_of_nil in Hin. }
  lia.
Qed.

(** X15. When every stored task has one of the priorities low, medium,
    high, this is so after every sequence of menu rounds. *)
Theorem priorities_kept (cs : list Trace.command) (s : State) :
  Forall (λ t, Task.priority t ∈ priorities) (Storage.get_tasks s) →
  Forall (λ t, Task.priority t ∈ priorities)
    (Storage.get_tasks (Trace.exec_all json_dump cs s)).
Proof.
  unfold Storage.get_tasks. revert s.
  induction cs as [|c cs IH]; intros s Hs; [exact Hs |].
  rewrite exec_all_cons. apply IH. rewrite exec_data.
  destruct c as [c | | | line | line | line |]; try exact Hs.
  - rewrite create_task_data. cbn [tasks].
    apply Forall_app. split; [exact Hs |]. constructor; [| constructor].
    cbn [Task.priority]. unfold priorities.
    case_bool_decide as Hin.
    + apply elem_of_cons. right. constructor.
    + exact Hin.
  - rewrite complete_task_data.
    destruct (Storage.update_loop _ _ _) as [l|] eqn:Hloop; [| exact Hs].
    destruct (update_loop_Some _ _ _ _ Hloop)
      as (before & t & after & Hl & _ & _ & ->).
    cbn [tasks]. rewrite Hl in Hs.
    apply Forall_app in Hs as [Hb Ha]. apply Forall_cons in Ha as [Ht Ha].
    apply Forall_app. split; [exact Hb |]. constructor; [| exact Ha].
    by rewrite dict_update_completed.
  - rewrite delete_task_data. cbn [tasks].
    apply Forall_forall. intros t Ht.
    apply list_elem_of_filter in Ht as [_ Ht].
    by apply (proj1 (Forall_forall _ _) Hs).
Qed.

(** Completing a stored id once more changes the counter only. *)
Lemma complete_task_again (line : string) (s : State)
    (before after : list Task.t) (t : Task.t) :
  tasks (Storage.data s) = before ++ t :: after →
  Task.id t = PyStr.strip line →
  Forall (λ u, Task.id u ≠ PyStr.strip line) before →
  Task.completed t = true →
  Storage.data (TaskManager.complete_task json_dump line s)
  = mkData (tasks (Storage.data s))
      (Stats.mk (Stats.created (stats (Storage.data s)))
         (Stats.completed (stats (Storage.data s)) + 1)).
Proof.
  intros Hl Ht Hb Hdone. rewrite complete_task_data, Hl.
  rewrite (update_loop_first _ _ _ _ _ Hb Ht), dict_update_completed.
  destruct t as [i ti d p c b]. cbn in Hdone. subst b. cbn.
  rewrite ?Hl. reflexivity.
Qed.

(** X16. Completing a stored id again and again: every call adds 1 to the
    counter of completions, while the task list is the one the first call
    left and the counter of creations does not move. *)
Theorem complete_task_repeated (n : nat) (line : string) (s : State) :
  (∃ t, t ∈ Storage.get_tasks s ∧ Task.id t = PyStr.strip line) →
  let s1 := TaskManager.complete_task json_dump line s in
  let sn := Nat.iter n (TaskManager.complete_task json_dump line) s1 in
  Storage.get_tasks sn = Storage.get_tasks s1
  ∧ Stats.completed (Storage.get_stats sn)
    = Stats.completed (Storage.get_stats s) + 1 + Z.of_nat n
  ∧ Stats.created (Storage.get_stats sn)
    = Stats.created (Storage.get_stats s).
Proof.
  intros Hex. cbn zeta. unfold Storage.get_tasks, Storage.get_stats in *.
  destruct (first_with_id _ _ Hex) as (before & t & after & Hl & Ht & Hb).
  assert (Storage.data (TaskManager.complete_task json_dump line s)
          = mkData
              (before
               ++ Task.mk (Task.id t) (Task.title t) (Task.description t)
                    (Task.priority t) (Task.created_at t) true
               :: after)
              (Stats.mk (Stats.created (stats (Storage.data s)))
                 (Stats.completed (stats (Storage.data s)) + 1))) as H1.
  { rewrite complete_task_data, Hl.
    by rewrite (update_loop_first _ _ _ _ _ Hb Ht), dict_update_completed. }
  induction n as [|n IH].
  - change (Nat.iter 0 (TaskManager.complete_task json_dump line) ?x) with x.
    rewrite !H1. cbn. split_and!; [done | lia | done].
  - change (Nat.iter (S n) (TaskManager.complete_task json_dump line) ?x)
      with (TaskManager.complete_task json_dump line
              (Nat.iter n (TaskManager.complete_task json_dump line) x)).
    destruct IH as (IHt & IHc & IHk).
    rewrite H1 in IHt. cbn [tasks] in IHt.
    rewrite (complete_task_again line _ _ _ _ IHt Ht Hb eq_refl).
    cbn [tasks stats Stats.created Stats.completed].
    rewrite IHc, IHk, IHt, !H1. cbn [tasks]. split_and!; [done | lia | done].
Qed.

(** *** The export *)

Lemma written_stanzas (l : list Task.t) (w : string) :
  fold_left (λ w task, w +:+ TaskManager.stanza task) l w
  = w +:+ foldr (λ task rest, TaskManager.stanza task +:+ rest) "" l.
Proof.
  revert w. induction l as [|t l IH]; intros w; cbn [fold_left foldr].
  - by rewrite append_nil_r.
  - by rewrite IH, append_assoc.
Qed.

Lemma export_name_not_data_file (today : string) :
  TaskManager.export_name today ≠ Main.DATA_FILE.
Proof. intros H. vm_compute in H. discriminate H. Qed.

(** X17. [export_tasks] leaves the data in memory and every file but the
    export file as they are, the backing file of [main] included. The
    export file holds the stanzas of all tasks, completed or not, in the
    order of the store, and nothing for a store without tasks; a second
    export on the same date replaces the file and does not add to it. *)
Theorem export_tasks_writes (today : string) (s : State) :
  let r := TaskManager.export_tasks plain today s in
  let name := TaskManager.export_name today in
  Storage.data r = Storage.data s
  ∧ Storage.filename r = Storage.filename s
  ∧ Storage.console r = Storage.console s ++ ["📁 Tasks exported to " +:+ name]
  ∧ Storage.disk r !! name
    = Some
        (Storage.Content
           (plain
              (foldr (λ task rest, TaskManager.stanza task +:+ rest) ""
                 (Storage.get_tasks s))))
  ∧ (Storage.get_tasks s = [] →
     Storage.disk r !! name = Some (Storage.Content (plain "")))
  ∧ (∀ other, other ≠ name →
       Storage.disk r !! other = Storage.disk s !! other)
  ∧ name ≠ Main.DATA_FILE
  ∧ Storage.disk (TaskManager.export_tasks plain today r) = Storage.disk r.
Proof.
  cbn zeta. unfold TaskManager.export_tasks, Storage.get_tasks. cbn.
  rewrite !written_stanzas.
  change ("" +:+ ?x) with x.
  split_and!.
  - done.
  - done.
  - done.
  - by rewrite lookup_insert_eq.
  - intros ->. by rewrite lookup_insert_eq.
  - intros other Hne. by rewrite lookup_insert_ne.
  - apply export_name_not_data_file.
  - by rewrite insert_insert_eq.
Qed.

(** *** The menu loop *)

Lemma press_enter_cases (s : State) (stdin : list string) :
  (Main.press_enter s stdin = Main.Stop (Main.EOFError s) ∧ stdin = [])
  ∨ ∃ line rest,
      stdin = line :: rest ∧ Main.press_enter s stdin = Main.Continue s rest.
Proof. destruct stdin as [|line rest]; [by left | right; by exists line, rest]. Qed.

Lemma with_line_cases (method : string → State → State) (s : State)
    (stdin : list string) :
  (Main.with_line method s stdin = Main.Stop (Main.EOFError s) ∧ stdin = [])
  ∨ (∃ line,
       stdin = [line]
       ∧ Main.with_line method s stdin
         = Main.Stop (Main.EOFError (method line s)))
  ∨ ∃ line enter rest,
      stdin = line :: enter :: rest
      ∧ Main.with_line method s stdin = Main.Continue (method line s) rest.
Proof.
  destruct stdin as [|line [|enter rest]].
  - by left.
  - right. left. by exists line.
  - right. right. by exists line, enter, rest.
Qed.

(** A pass of the loop either stops at the end of standard input, or stops
    after Goodbye on the choice 0, or goes on after one method of the task
    manager or the notice of an invalid option, with fewer lines left. *)
Lemma pass_cases (d : Main.draws) (k : nat) (stdin : list string)
    (s : State) :
  let m := Main.main_menu s in
  (∃ s',
     Main.pass json_dump plain d k stdin s = Main.Stop (Main.EOFError s')
     ∧ (s' = m
        ∨ s' = Storage.print "=== Create New Task ===" m
        ∨ (∃ c, s' = Trace.exec json_dump c m)
        ∨ (∃ today, s' = TaskManager.export_tasks plain today m)
        ∨ s' = Storage.print "Invalid option." m))
  ∨ (∃ line rest,
       stdin = line :: rest ∧ PyStr.strip line = "0"
       ∧ Main.pass json_dump plain d k stdin s
         = Main.Stop (Main.Exit (Storage.print "Goodbye." m)))
  ∨ ∃ s' used rest,
      stdin = used ++ rest
      ∧ (2 ≤ length used)%nat
      ∧ Main.pass json_dump plain d k stdin s = Main.Continue s' rest
      ∧ ((∃ c, s' = Trace.exec json_dump c m)
         ∨ (∃ today, s' = TaskManager.export_tasks plain today m)
         ∨ s' = Storage.print "Invalid option." m).
Proof.
  cbn zeta. unfold Main.pass.
  set (m := Main.main_menu s). clearbody m.
  destruct stdin as [|line stdin].
  { left. exists m. split; [done | by left]. }
  destruct (String.eqb_spec (PyStr.strip line) "1") as [_|_].
  { destruct stdin as [|t [|ds [|p stdin]]];
      try (left; eexists; split; [reflexivity | right; by left]).
    destruct (press_enter_cases
                (TaskManager.create_task json_dump t ds p (Main.uuid_at d k)
                   (Main.now_at d k) m) stdin)
      as [[-> ->] | (enter & rest & -> & ->)].
    - left. eexists. split; [reflexivity |]. right. right. left.
      by exists (Trace.Create
                   (Trace.mkCreation t ds p (Main.uuid_at d k)
                      (Main.now_at d k))).
    - right. right. eexists _, [line; t; ds; p; enter], rest.
      split_and!; [done | cbn; lia | done |]. left.
      by exists (Trace.Create
                   (Trace.mkCreation t ds p (Main.uuid_at d k)
                      (Main.now_at d k))). }
  destruct (String.eqb_spec (PyStr.strip line) "2") as [_|_].
  { destruct (press_enter_cases (TaskManager.list_tasks true m) stdin)
      as [[-> ->] | (enter & rest & -> & ->)].
    - left. eexists. split; [reflexivity |]. right. right. left.
      by exists Trace.ListAll.
    - right. right. eexists _, [line; enter], rest.
      split_and!; [done | cbn; lia | done |]. left. by exists Trace.ListAll. }
  destruct (String.eqb_spec (PyStr.strip line) "3") as [_|_].
  { destruct (press_enter_cases (TaskManager.list_tasks false m) stdin)
      as [[-> ->] | (enter & rest & -> & ->)].
    - left. eexists. split; [reflexivity |]. right. right. left.
      by exists Trace.ListActive.
    - right. right. eexists _, [line; enter], rest.
      split_and!; [done | cbn; lia | done |]. left.
      by exists Trace.ListActive. }
  destruct (String.eqb_spec (PyStr.strip line) "4") as [_|_].
  { destruct (with_line_cases (TaskManager.complete_task json_dump) m stdin)
      as [[-> ->] | [(l & -> & ->) | (l & enter & rest & -> & ->)]].
    - left. eexists. split; [reflexivity | by left].
    - left. eexists. split; [reflexivity |]. right. right. left.
      by exists (Trace.Complete l).
    - right. right. eexists _, [line; l; enter], rest.
      split_and!; [done | cbn; lia | done |]. left.
      by exists (Trace.Complete l). }
  destruct (String.eqb_spec (PyStr.strip line) "5") as [_|_].
  { destruct (with_line_cases (TaskManager.delete_task json_dump) m stdin)
      as [[-> ->] | [(l & -> & ->) | (l & enter & rest & -> & ->)]].
    - left. eexists. split; [reflexivity | by left].
    - left. eexists. split; [reflexivity |]. right. right. left.
      by exists (Trace.Remove l).
    - right. right. eexists _, [line; l; enter], rest.
      split_and!; [done | cbn; lia | done |]. left.
      by exists (Trace.Remove l). }
  destruct (String.eqb_spec (PyStr.strip line) "6") as [_|_].
  { destruct (with_line_cases TaskManager.search_tasks m stdin)
      as [[-> ->] | [(l & -> & ->) | (l & enter & rest & -> & ->)]].
    - left. eexists. split; [reflexivity | by left].
    - left. eexists. split; [reflexivity |]. right. right. left.
      by exists (Trace.Search l).
    - right. right. eexists _, [line; l; enter], rest.
      split_and!; [done | cbn; lia | done |]. left.
      by exists (Trace.Search l). }
  destruct (String.eqb_spec (PyStr.strip line) "7") as [_|_].
  { destruct (press_enter_cases (TaskManager.show_stats m) stdin)
      as [[-> ->] | (enter & rest & -> & ->)].
    - left. eexists. split; [reflexivity |]. right. right. left.
      by exists Trace.Statistics.
    - right. right. eexists _, [line; enter], rest.
      split_and!; [done | cbn; lia | done |]. left.
      by exists Trace.Statistics. }
  destruct (String.eqb_spec (PyStr.strip line) "8") as [_|_].
  { destruct (press_enter_cases
                (TaskManager.export_tasks plain (Main.today_at d k) m) stdin)
      as [[-> ->] | (enter & rest & -> & ->)].
    - left. eexists. split; [reflexivity |]. right. right. right. left.
      by exists (Main.today_at d k).
    - right. right. eexists _, [line; enter], rest.
      split_and!; [done | cbn; lia | done |]. right. left.
      by exists (Main.today_at d k). }
  destruct (String.eqb_spec (PyStr.strip line) "0") as [H0|_].
  { right. left. by exists line, stdin. }
  destruct (press_enter_cases (Storage.print "Invalid option." m) stdin)
    as [[-> ->] | (enter & rest & -> & ->)].
  - left. eexists. split; [reflexivity |]. by repeat right.
  - right. right. eexists _, [line; enter], rest.
    split_and!; [done | cbn; lia | done |]. by repeat right.
Qed.

(** What holds of the store at the start of [main] and is kept by every
    print, every method of the task manager and the export, holds when
    [main] ends. *)
Lemma loop_invariant (P : State → Prop) :
  (∀ line s, P s → P (Storage.print line s)) →
  (∀ c s, P s → P (Trace.exec json_dump c s)) →
  (∀ today s, P s → P (TaskManager.export_tasks plain today s)) →
  ∀ fuel d k stdin s e,
    P s → Main.loop json_dump plain fuel d k stdin s = Some e →
    P (Main.final e).
Proof.
  intros Hprint Hexec Hexport.
  induction fuel as [|fuel IH]; intros d k stdin s e Hs Hloop;
    [discriminate |].
  cbn [Main.loop] in Hloop.
  assert (P (Main.main_menu s)) as Hm.
  { unfold Main.main_menu. by repeat apply Hprint. }
  destruct (pass_cases d k stdin s)
    as [(s' & Hp & Hs') | [(line & rest & _ & _ & Hp)
                          | (s' & used & rest & _ & _ & Hp & Hs')]];
    rewrite Hp in Hloop.
  - injection Hloop as <-. cbn [Main.final].
    destruct Hs' as [-> | [-> | [[c ->] | [[today ->] | ->]]]]; auto.
  - injection Hloop as <-. cbn [Main.final]. by apply Hprint.
  - refine (IH _ _ _ _ _ _ Hloop).
    destruct Hs' as [[c ->] | [[today ->] | ->]]; auto.
Qed.

(** The loop ends once the lines of standard input are used up. *)
Lemma loop_ends (fuel : nat) (d : Main.draws) (k : nat)
    (stdin : list string) (s : State) :
  (length stdin < fuel)%nat →
  ∃ e,
    Main.loop json_dump plain fuel d k stdin s = Some e
    ∧ ∀ s', e = Main.Exit s' →
        (∃ line, line ∈ stdin ∧ PyStr.strip line = "0")
        ∧ last (Storage.console s') = Some "Goodbye.".
Proof.
  revert d k stdin s. induction fuel as [|fuel IH]; intros d k stdin s Hlen;
    [lia |].
  cbn [Main.loop].
  destruct (pass_cases d k stdin s)
    as [(s' & Hp & Hs') | [(line & rest & -> & H0 & Hp)
                          | (s' & used & rest & -> & Hused & Hp & Hs')]];
    rewrite Hp.
  - eexists. split; [reflexivity |]. intros s0 Heq. discriminate.
  - eexists. split; [reflexivity |]. intros s0 Heq. injection Heq as <-.
    split; [exists line; split; [constructor | done] |].
    cbn. by rewrite last_snoc.
  - rewrite length_app in Hlen.
    destruct (IH d (S k) rest s' ltac:(lia)) as (e & He & Hexit).
    exists e. split; [exact He |]. intros s0 Heq.
    destruct (Hexit s0 Heq) as ((line & Hin & H0) & Hlast).
    split; [| exact Hlast]. exists line. split; [| exact H0].
    apply elem_of_app. by right.
Qed.

(** X18. On a finite standard input [main] always ends, as soon as it may
    run more passes than there are lines: after Goodbye, which takes a line
    that reads 0 once the blanks around it are dropped, or else with the
    [EOFError] of an [input] that finds no line left. *)
Theorem main_ends (fuel : nat) (d : Main.draws) (stdin : list string)
    (dk : gmap string (Storage.file text)) :
  (length stdin < fuel)%nat →
  ∃ e,
    Main.main json_dump json_load plain fuel d stdin dk = Some e
    ∧ (∀ s', e = Main.Exit s' →
         (∃ line, line ∈ stdin ∧ PyStr.strip line = "0")
         ∧ last (Storage.console s') = Some "Goodbye.")
    ∧ ((∀ line, line ∈ stdin → PyStr.strip line ≠ "0") →
       ∃ s', e = Main.EOFError s').
Proof.
  intros Hlen. unfold Main.main.
  destruct (loop_ends fuel d 0 stdin
              (Storage.init json_load Main.DATA_FILE dk []) Hlen)
    as (e & He & Hexit).
  exists e. split_and!; [exact He | exact Hexit |].
  intros Hno. destruct e as [s' | s']; [| by exists s'].
  destruct (Hexit s' eq_refl) as ((line & Hin & H0) & _).
  by destruct (Hno line Hin).
Qed.



(** X20. [main] writes the backing file and export files only: every other
    file of the disk is, when [main] ends, as it was when it started. *)
Theorem main_touches_two_kinds_of_files (fuel : nat) (d : Main.draws)
    (stdin : list string) (dk : gmap string (Storage.file text))
    (e : Main.ending) (name : string) :
  name ≠ Main.DATA_FILE →
  (∀ today, name ≠ TaskManager.export_name today) →
  Main.main json_dump json_load plain fuel d stdin dk = Some e →
  Storage.disk (Main.final e) !! name = dk !! name.
Proof.
  intros Hdata Hexport Hmain. unfold Main.main in Hmain.
  set (P := λ s : State,
         Storage.filename s = Main.DATA_FILE
         ∧ Storage.disk s !! name = dk !! name).
  assert (P (Main.final e)) as [_ H]; [| exact H].
  apply (loop_invariant P) with (fuel := fuel) (d := d) (k := 0%nat)
    (stdin := stdin) (s := Storage.init json_load Main.DATA_FILE dk []);
    [| | | | exact Hmain].
  - intros line s [Hn Hd]. split; [exact Hn | exact Hd].
  - intros c s [Hn Hd]. split.
    + destruct (exec_bare json_dump c s) as (-> & _). exact Hn.
    + destruct (exec_effect json_dump c s) as [[_ ->] | ->]; [exact Hd |].
      rewrite Hn, lookup_insert_ne by done. exact Hd.
  - intros today s [Hn Hd]. split; [exact Hn |].
    unfold TaskManager.export_tasks. cbn.
    rewrite lookup_insert_ne by (intros Heq; by apply (Hexport today)).
    exact Hd.
  - unfold Storage.init, Storage.load. cbn. by repeat case_match.
Qed.

(** Two states with the same store and the same disk, whatever the console
    shows, stay so through a round. *)
Lemma exec_same_data_disk (c : Trace.command) (s1 s2 : State) :
  Storage.filename s1 = Storage.filename s2 →
  Storage.data s1 = Storage.data s2 →
  Storage.disk s1 = Storage.disk s2 →
  Storage.filename (Trace.exec json_dump c s1)
  = Storage.filename (Trace.exec json_dump c s2)
  ∧ Storage.data (Trace.exec json_dump c s1)
    = Storage.data (Trace.exec json_dump c s2)
  ∧ Storage.disk (Trace.exec json_dump c s1)
    = Storage.disk (Trace.exec json_dump c s2).
Proof.
  intros Hn Hd Hk.
  destruct (exec_bare json_dump c s1) as (Hf1 & _ & Hd1 & _ & Hk1).
  destruct (exec_bare json_dump c s2) as (Hf2 & _ & Hd2 & _ & Hk2).
  assert (bare s1 = bare s2) as Hbare by (unfold bare; by rewrite Hn, Hd).
  rewrite Hf1, Hf2, Hd1, Hd2, Hk1, Hk2, Hbare, Hn, Hk. done.
Qed.

(** A pass on the lines typed for a round runs the method of that round. *)
Lemma pass_typed (c : Trace.command) (d : Main.draws) (k : nat)
    (more : list string) (s : State) :
  (∀ cr, c = Trace.Create cr →
     Main.uuid_at d k = Trace.uuid cr ∧ Main.now_at d k = Trace.now cr) →
  Main.pass json_dump plain d k (typed c ++ more) s
  = Main.Continue (Trace.exec json_dump c (Main.main_menu s)) more.
Proof.
  intros Hdraw. destruct c as [cr | | | line | line | line |]; try reflexivity.
  destruct (Hdraw cr eq_refl) as [Hu Hn]. destruct cr as [t ds p u n].
  cbn in Hu, Hn. cbn. by rewrite Hu, Hn.
Qed.

Lemma main_menu_store (s : State) :
  Storage.filename (Main.main_menu s) = Storage.filename s
  ∧ Storage.data (Main.main_menu s) = Storage.data s
  ∧ Storage.disk (Main.main_menu s) = Storage.disk s.
Proof. done. Qed.

Lemma loop_script (cs : list Trace.command) (d : Main.draws) (k fuel : nat)
    (rest : list string) (s s0 : State) :
  draws_agree d k cs → (length cs < fuel)%nat →
  Storage.filename s = Storage.filename s0 →
  Storage.data s = Storage.data s0 →
  Storage.disk s = Storage.disk s0 →
  ∃ s',
    Main.loop json_dump plain fuel d k (script cs ++ "0" :: rest) s
    = Some (Main.Exit s')
    ∧ Storage.data s' = Storage.data (Trace.exec_all json_dump cs s0)
    ∧ Storage.disk s' = Storage.disk (Trace.exec_all json_dump cs s0).
Proof.
  revert k fuel s s0.
  induction cs as [|c cs IH]; intros k fuel s s0 Hdraw Hfuel Hn Hd Hk.
  - destruct fuel as [|fuel]; [cbn in Hfuel; lia |].
    eexists. split; [reflexivity |]. by cbn.
  - destruct fuel as [|fuel]; [cbn in Hfuel; lia |].
    unfold script. rewrite fmap_cons, concat_cons, <- app_assoc.
    fold (script cs). cbn [Main.loop].
    rewrite pass_typed.
    2:{ intros cr ->. specialize (Hdraw 0%nat cr eq_refl).
        by rewrite Nat.add_0_r in Hdraw. }
    rewrite exec_all_cons.
    destruct (main_menu_store s) as (Hmn & Hmd & Hmk).
    destruct (exec_same_data_disk c (Main.main_menu s) s0)
      as (Hn1 & Hd1 & Hk1); [congruence | congruence | congruence |].
    apply IH; [| cbn in Hfuel; lia | done | done | done].
    intros i cr Hi. specialize (Hdraw (S i) cr Hi).
    by rewrite Nat.add_succ_r in Hdraw.
Qed.

(** X21. The menu is wired to the methods: when the user types, round after
    round, a choice from 1 to 7 with the lines its method asks for and a
    line to go on, and then 0, [main] ends after Goodbye with the data and
    the disk that the methods of these rounds, called in that order on the
    store just started, leave behind. *)
Theorem main_follows_script (cs : list Trace.command) (d : Main.draws)
    (fuel : nat) (rest : list string)
    (dk : gmap string (Storage.file text)) :
  draws_agree d 0 cs → (length cs < fuel)%nat →
  ∃ s',
    Main.main json_dump json_load plain fuel d (script cs ++ "0" :: rest) dk
    = Some (Main.Exit s')
    ∧ Storage.data s'
      = Storage.data
          (Trace.exec_all json_dump cs
             (Storage.init json_load Main.DATA_FILE dk []))
    ∧ Storage.disk s'
      = Storage.disk
          (Trace.exec_all json_dump cs
             (Storage.init json_load Main.DATA_FILE dk [])).
Proof.
  intros Hdraw Hfuel. unfold Main.main. by apply loop_script.
Qed.

End Further.

(** ** The further properties at work *)

(** X3 on a store just started: a creation and the deletion of its task. *)
Lemma total_at_most_created_sample :
  let rounds := [Trace.Create first_draw; Trace.Remove "deadbeef"] in
  Z.of_nat (length (Storage.get_tasks fresh))
  <= Stats.created (Storage.get_stats fresh)
  ∧ Z.of_nat (length (Storage.get_tasks (Trace.exec_all keep_dump rounds fresh)))
    <= Stats.created
         (Storage.get_stats (Trace.exec_all keep_dump rounds fresh)).
Proof.
  intros rounds.
  assert (Z.of_nat (length (Storage.get_tasks fresh))
          <= Stats.created (Storage.get_stats fresh)) as H by (by vm_compute).
  split; [exact H |].
  exact (total_at_most_created keep_dump rounds fresh H).
Defined.

(** X8 on the sample store. *)
Lemma create_then_delete_sample :
  (generate_id (Trace.uuid first_draw)
   ∉ Task.id <$> Storage.get_tasks sample_state)
  ∧ PyStr.strip " deadbeef" = generate_id (Trace.uuid first_draw)
  ∧ Storage.get_tasks
      (TaskManager.delete_task keep_dump " deadbeef"
         (Trace.create keep_dump first_draw sample_state))
    = [milk; report].
Proof.
  assert (generate_id (Trace.uuid first_draw)
          ∉ Task.id <$> Storage.get_tasks sample_state) as H1.
  { intros H. cbn in H.
    repeat (apply elem_of_cons in H as [H|H]; [discriminate |]).
    by apply elem_of_nil in H. }
  assert (PyStr.strip " deadbeef" = generate_id (Trace.uuid first_draw))
    as H2 by reflexivity.
  split_and!; [exact H1 | exact H2 |].
  destruct (create_then_delete keep_dump first_draw " deadbeef" sample_state
              H1 H2) as (Htasks & _).
  exact Htasks.
Defined.


(** X10 on the sample store. *)
Lemma complete_then_list_active_sample :
  NoDup (Task.id <$> Storage.get_tasks sample_state)
  ∧ PyStr.strip "1a2b3c4d" ∈ Task.id <$> Storage.get_tasks sample_state
  ∧ TaskManager.listed false
      (Storage.get_tasks
         (TaskManager.complete_task keep_dump "1a2b3c4d" sample_state))
    = [].
Proof.
  assert (NoDup (Task.id <$> Storage.get_tasks sample_state)) as H1.
  { cbn. apply NoDup_cons. split; [| apply NoDup_singleton].
    intros H. apply list_elem_of_singleton in H. discriminate. }
  assert (PyStr.strip "1a2b3c4d" ∈ Task.id <$> Storage.get_tasks sample_state)
    as H2 by (cbn; constructor).
  split_and!; [exact H1 | exact H2 |].
  destruct (complete_then_list_active keep_dump "1a2b3c4d" sample_state H1 H2)
    as (Hactive & _).
  rewrite Hactive. reflexivity.
Defined.

(** X15 on the sample store. *)
Lemma priorities_kept_sample :
  let rounds := [Trace.Create first_draw; Trace.Complete "deadbeef"] in
  Forall (λ t, Task.priority t ∈ priorities) (Storage.get_tasks sample_state)
  ∧ Forall (λ t, Task.priority t ∈ priorities)
      (Storage.get_tasks (Trace.exec_all keep_dump rounds sample_state)).
Proof.
  intros rounds.
  assert (Forall (λ t, Task.priority t ∈ priorities)
            (Storage.get_tasks sample_state)) as H.
  { unfold priorities. repeat constructor. }
  split; [exact H |].
  exact (priorities_kept keep_dump rounds sample_state H).
Defined.

(** X16 on the sample store: four completions of a task that was completed
    already bring the counter from 1 to 5. *)
Lemma complete_task_repeated_sample :
  (∃ t, t ∈ Storage.get_tasks sample_state
        ∧ Task.id t = PyStr.strip "9f8e7d6c")
  ∧ Stats.completed
      (Storage.get_stats
         (Nat.iter 3 (TaskManager.complete_task keep_dump "9f8e7d6c")
            (TaskManager.complete_task keep_dump "9f8e7d6c" sample_state)))
    = 5.
Proof.
  assert (∃ t, t ∈ Storage.get_tasks sample_state
               ∧ Task.id t = PyStr.strip "9f8e7d6c") as H.
  { exists report. split; [| reflexivity]. cbn. right. constructor. }
  split; [exact H |].
  destruct (complete_task_repeated keep_dump 3 "9f8e7d6c" sample_state H)
    as (_ & Hcount & _).
  rewrite Hcount. reflexivity.
Defined.

(** X18 on three lines: the statistics, a line to go on, and 0. *)
Lemma main_ends_sample :
  (length ["7"; ""; "0"] < 5)%nat
  ∧ ∃ e,
      Main.main keep_dump keep_load keep_plain 5 sample_draws ["7"; ""; "0"] ∅
      = Some e.
Proof.
  assert (length ["7"; ""; "0"] < 5)%nat as H by (cbn; lia).
  split; [exact H |].
  destruct (main_ends keep_dump keep_load keep_plain 5 sample_draws
              ["7"; ""; "0"] ∅ H) as (e & He & _).
  by exists e.
Defined.


(** X20 on a session with an export, for a file of notes. *)
Lemma main_touches_two_kinds_of_files_sample :
  let stdin := ["1"; "Buy milk"; "2% milk"; "urgent"; ""; "8"; ""; "0"] in
  let dk : gmap string (Storage.file (option Data)) :=
    {[ "notes.txt" := Storage.Content None ]} in
  "notes.txt" ≠ Main.DATA_FILE
  ∧ (∀ today, "notes.txt" ≠ TaskManager.export_name today)
  ∧ ∃ e,
      Main.main keep_dump keep_load keep_plain 5 sample_draws stdin dk = Some e
      ∧ Storage.disk (Main.final e) !! "notes.txt" = dk !! "notes.txt".
Proof.
  intros stdin dk.
  assert ("notes.txt" ≠ Main.DATA_FILE) as H1 by discriminate.
  assert (∀ today, "notes.txt" ≠ TaskManager.export_name today) as H2.
  { intros today H. vm_compute in H. discriminate H. }
  split_and!; [exact H1 | exact H2 |].
  destruct (Main.main keep_dump keep_load keep_plain 5 sample_draws stdin dk)
    as [e|] eqn:Hmain; [| by vm_compute in Hmain].
  exists e. split; [reflexivity |].
  exact (main_touches_two_kinds_of_files keep_dump keep_load keep_plain 5
           sample_draws stdin dk e "notes.txt" H1 H2 Hmain).
Defined.

(** X21 on three rounds: a creation, the completion of its task, the
    statistics. *)
Lemma main_follows_script_sample :
  let rounds :=
    [Trace.Create first_draw; Trace.Complete "deadbeef"; Trace.Statistics] in
  draws_agree sample_draws 0 rounds
  ∧ (length rounds < 4)%nat
  ∧ ∃ s',
      Main.main keep_dump keep_load keep_plain 4 sample_draws
        (script rounds ++ ["0"]) ∅
      = Some (Main.Exit s')
      ∧ Stats.completed (Storage.get_stats s') = 1.
Proof.
  intros rounds.
  assert (draws_agree sample_draws 0 rounds) as H1.
  { intros [|[|[|i]]] c H; cbn in H; try discriminate.
    injection H as <-. by split. }
  assert (length rounds < 4)%nat as H2 by (cbn; lia).
  split_and!; [exact H1 | exact H2 |].
  destruct (main_follows_script keep_dump keep_load keep_plain rounds
              sample_draws 4 [] ∅ H1 H2) as (s' & Hmain & Hdata & _).
  exists s'. split; [exact Hmain |].
  unfold Storage.get_stats. rewrite Hdata. reflexivity.
Defined.

